(** * The [lab] booking command of plugins/lab.js

    A shallow embedding of the command handler registered by
    [plugins/lab.js] and of its two file helpers, [loadBookings] and
    [saveBookings], followed by the properties of the handler.

    Conventions of the embedding.
    - A JavaScript string is a Rocq [string].  The handler only compares
      strings for equality, concatenates them, takes their last characters
      and tests them against two ASCII regular expressions, so the encoding
      of the characters outside ASCII plays no role.
    - The bookings file is a piece of state, [Disk]; the clock and the
      outcome of the file-system calls of [saveBookings] are read from an
      environment, [Env].
    - The [async] functions run to completion one after the other, so they
      are functions in a monad of state and exceptions, [M].
    - [formatDate] is not called by the handler and is left out. *)

From Stdlib Require Import String Ascii List ZArith NArith Lia Bool.
Import ListNotations.
Open Scope string_scope.
Open Scope Z_scope.

(** ** Strings *)

(** [String.prototype.slice(start)] with one argument: a negative [start]
    counts from the end, and both ends are clamped to the string. *)
Definition slice (start : Z) (s : string) : string :=
  let len := Z.of_nat (String.length s) in
  let from := if start <? 0 then Z.max (len + start) 0 else Z.min start len in
  substring (Z.to_nat from) (Z.to_nat (len - from)) s.

Definition digit_char (d : N) : ascii := ascii_of_N (48 + d).

(** Decimal digits of a natural number, most significant first; [fuel]
    bounds the number of digits produced. *)
Fixpoint digits_aux (fuel : nat) (n : N) (acc : string) : string :=
  match fuel with
  | O => acc
  | S fuel' =>
      let acc' := String (digit_char (n mod 10)) acc in
      if (n / 10 =? 0)%N then acc' else digits_aux fuel' (n / 10)%N acc'
  end.

Definition N_toString (n : N) : string :=
  digits_aux (S (N.to_nat (N.log2 n))) n "".

(** [Number.prototype.toString()] on an integer (below 1e21 in absolute
    value, where JavaScript still prints all the digits). *)
Definition Z_toString (z : Z) : string :=
  if z <? 0 then "-" ++ N_toString (Z.to_N (- z)) else N_toString (Z.to_N z).

Definition is_digit (c : ascii) : bool :=
  ((48 <=? N_of_ascii c) && (N_of_ascii c <=? 57))%N.

(** ** Regular expressions

    The two patterns of the handler are anchored sequences of one-character
    atoms with a counted repetition, [a{min,max}].  [match_pieces] is the
    backtracking matcher for such a sequence: the empty sequence matches
    the end of the input only, as [$] does without the [m] flag. *)
Inductive atom : Type :=
| Digit                 (* \d *)
| Lit (c : ascii).      (* a literal character *)

Record piece : Type := Piece { p_atom : atom; p_min : nat; p_max : nat }.

Definition atom_matches (a : atom) (c : ascii) : bool :=
  match a with
  | Digit => is_digit c
  | Lit c' => Ascii.eqb c c'
  end.

(** Consume exactly [n] characters matching [a]. *)
Fixpoint take_atoms (a : atom) (n : nat) (s : string) : option string :=
  match n with
  | O => Some s
  | S n' =>
      match s with
      | String c rest => if atom_matches a c then take_atoms a n' rest else None
      | EmptyString => None
      end
  end.

Fixpoint match_pieces (ps : list piece) (s : string) : bool :=
  match ps with
  | [] => String.eqb s ""
  | p :: ps' =>
      existsb
        (fun k =>
           match take_atoms (p_atom p) k s with
           | Some rest => match_pieces ps' rest
           | None => false
           end)
        (seq (p_min p) (S (p_max p) - p_min p))
  end.

Definition times (a : atom) (n : nat) : piece := Piece a n n.

(** [/^\d{4}-\d{2}-\d{2}$/] *)
Definition date_regex : list piece :=
  [times Digit 4; times (Lit "-") 1; times Digit 2; times (Lit "-") 1;
   times Digit 2].

(** [/^\d{1,2}:\d{2}$/] *)
Definition time_regex : list piece :=
  [Piece Digit 1 2; times (Lit ":") 1; times Digit 2].

Definition test (re : list piece) (s : string) : bool := match_pieces re s.

(** ** Data model *)

(** A booking record, with the seven members that case "book" gives it. *)
Record Booking : Type := mkBooking {
  id : string;
  customerName : string;
  date : string;
  time : string;
  labType : string;
  status : string;
  bookingTime : string
}.

(** The store document, as [saveBookings] writes it: an object whose
    [bookings] member is an array of booking records.  [bookings] is [None]
    when the document has no [bookings] member, the case that
    [!bookingsData.bookings] tests in case "view". *)
Record Document : Type := mkDocument { bookings : option (list Booking) }.

Definition empty_document : Document := {| bookings := Some [] |}.

(** ** The file, the environment and the monad *)

(** What [fs.readFile] finds at [bookingsFilePath].  The text that
    [JSON.stringify(d, null, 2)] writes is represented by [Json d]:
    [JSON.parse] returns [d] on it.  [Garbage] is any text that
    [JSON.parse] rejects.  Text that [JSON.parse] accepts without it being
    a store document (such as [null]) has no value here: the properties
    below are about files that are missing, unparseable or hold a store
    document. *)
Inductive FileContent : Type :=
| Garbage (text : string)
| Json (d : Document).

(** The bookings file: [None] when [fs.readFile] fails (no such file, or
    no permission to read it). *)
Definition Disk : Type := option FileContent.

Inductive Error : Type :=
| ENOENT          (* fs.readFile failed *)
| SyntaxError     (* JSON.parse failed *)
| TypeError       (* a member of undefined was read *)
| EIO.            (* fs.mkdir or fs.writeFile failed *)

(** What one invocation reads from its environment: [Date.now()],
    [new Date().toISOString()], and whether the two file-system calls of
    [saveBookings] succeed.  [write_ok] false stands for a [fs.writeFile]
    that is refused before the file is opened, which leaves the file as it
    is; what a write that breaks off after the file has been truncated
    leaves behind is not described. *)
Record Env : Type := mkEnv {
  now : Z;
  iso_now : string;
  mkdir_ok : bool;
  write_ok : bool
}.

(** The calls that are visible from outside, in the order they happen;
    [LoadCalled] and [SaveCalled] mark the entry into the two helpers. *)
Inductive Event : Type :=
| LoadCalled
| SaveCalled (d : Document)
| Mkdir
| WriteFile (d : Document)
| ConsoleError (e : Error).

Record State : Type := mkState { disk : Disk; trace : list Event }.

Inductive result (A : Type) : Type :=
| Ok (a : A)
| Throw (e : Error).
Arguments Ok {A} a.
Arguments Throw {A} e.

Definition M (A : Type) : Type := State -> result A * State.

Definition ret {A} (a : A) : M A := fun s => (Ok a, s).

Definition bind {A B} (m : M A) (k : A -> M B) : M B :=
  fun s =>
    match m s with
    | (Ok a, s') => k a s'
    | (Throw e, s') => (Throw e, s')
    end.

Definition throw {A} (e : Error) : M A := fun s => (Throw e, s).

(** [try { m } catch (error) { h error }] *)
Definition try_catch {A} (m : M A) (h : Error -> M A) : M A :=
  fun s =>
    match m s with
    | (Ok a, s') => (Ok a, s')
    | (Throw e, s') => h e s'
    end.

Definition emit (ev : Event) : M unit :=
  fun s => (Ok tt, {| disk := disk s; trace := trace s ++ [ev] |}).

Declare Scope lab_scope.
Delimit Scope lab_scope with lab.
Notation "x <- m ;; k" := (bind m (fun x => k))
  (at level 61, m at next level, right associativity) : lab_scope.
Notation "m ;; k" := (bind m (fun _ => k))
  (at level 61, right associativity) : lab_scope.
Open Scope lab_scope.

(** *** File system and JSON *)

Definition readFile : M FileContent :=
  fun s =>
    match disk s with
    | Some c => (Ok c, s)
    | None => (Throw ENOENT, s)
    end.

Definition JSON_parse (c : FileContent) : M Document :=
  match c with
  | Json d => ret d
  | Garbage _ => throw SyntaxError
  end.

Definition mkdir (env : Env) : M unit :=
  if mkdir_ok env then emit Mkdir else throw EIO.

Definition writeFile (env : Env) (d : Document) : M unit :=
  if write_ok env
  then fun s => (Ok tt, {| disk := Some (Json d); trace := trace s ++ [WriteFile d] |})
  else throw EIO.

Definition console_error (e : Error) : M unit := emit (ConsoleError e).

(** ** The two helpers *)

(** The [try] block of [loadBookings]. *)
Definition read_and_parse : M Document :=
  data <- readFile ;; JSON_parse data.

Definition loadBookings : M Document :=
  emit LoadCalled ;;
  try_catch read_and_parse (fun _ => ret empty_document).

Definition saveBookings (env : Env) (bookingsData : Document) : M bool :=
  emit (SaveCalled bookingsData) ;;
  try_catch
    (mkdir env ;; writeFile env bookingsData ;; ret true)
    (fun error => console_error error ;; ret false).

(** ** Arguments and lists *)

(** [!args[i]]: the element is missing ([undefined]) or the empty string. *)
Definition falsy (a : option string) : bool :=
  match a with
  | None => true
  | Some s => String.eqb s ""
  end.

(** [args[i]] where [i] is below [args.length]. *)
Definition arg (i : nat) (args : list string) : string := nth i args "".

(** [Array.prototype.findIndex]: the index of the first element that
    satisfies [p], or [-1]. *)
Fixpoint findIndex_from {A} (p : A -> bool) (l : list A) (k : Z) : Z :=
  match l with
  | [] => -1
  | x :: l' => if p x then k else findIndex_from p l' (k + 1)
  end.

Definition findIndex {A} (p : A -> bool) (l : list A) : Z :=
  findIndex_from p l 0.

Fixpoint update_at {A} (i : nat) (f : A -> A) (l : list A) : list A :=
  match l, i with
  | [], _ => []
  | x :: l', O => f x :: l'
  | x :: l', S i' => x :: update_at i' f l'
  end.

Definition set_status (st : string) (b : Booking) : Booking :=
  {| id := id b; customerName := customerName b; date := date b;
     time := time b; labType := labType b; status := st;
     bookingTime := bookingTime b |}.

(** [bookingsData.bookings.m(...)]: reading a member of [undefined] throws. *)
Definition bookings_of (bookingsData : Document) : M (list Booking) :=
  match bookings bookingsData with
  | Some l => ret l
  | None => throw TypeError
  end.

(** ** Replies *)

Definition nl : string := String (ascii_of_nat 10) "".

Definition msg_help : string :=
  "*Lab Booking System*" ++ nl ++ nl ++
  "Available commands:" ++ nl ++
  "- *book [name] [date] [time] [lab-type]* - Book a lab slot" ++ nl ++
  "- *view* - View all bookings" ++ nl ++
  "- *cancel [booking-id]* - Cancel a booking" ++ nl ++
  "- *status [booking-id]* - Check booking status" ++ nl ++ nl ++
  "Example: lab book John 2025-05-20 14:00 chemistry".

Definition msg_missing : string :=
  "*Please provide all required information:* name, date, time, and lab-type".
Definition msg_bad_date : string :=
  "*Invalid date format.* Please use YYYY-MM-DD format.".
Definition msg_bad_time : string :=
  "*Invalid time format.* Please use HH:MM format.".
Definition msg_save_failed : string :=
  "*⚠️ Failed to save booking. Please try again.*".
Definition msg_no_bookings : string := "*No bookings found.*".
Definition msg_cancel_no_id : string :=
  "*Please provide a booking ID to cancel.*".
Definition msg_cancel_failed : string :=
  "*⚠️ Failed to cancel booking. Please try again.*".
Definition msg_status_no_id : string :=
  "*Please provide a booking ID to check status.*".
Definition msg_unknown : string :=
  "*Unknown command.* Use 'lab' without arguments to see available commands.".
Definition msg_error : string :=
  "*⚠️ An error occurred while processing your request. Please try again.*".

Definition msg_not_found (i : string) : string :=
  "*Booking with ID " ++ i ++ " not found.*".

Definition msg_cancelled (i : string) : string :=
  "*✅ Booking " ++ i ++ " has been cancelled successfully.*".

Definition msg_confirmed (bookingId name date time labType : string) : string :=
  "*✅ Lab Booking Confirmed!*" ++ nl ++ nl ++
  "*Booking ID:* " ++ bookingId ++ nl ++
  "*Customer:* " ++ name ++ nl ++
  "*Date:* " ++ date ++ nl ++
  "*Time:* " ++ time ++ nl ++
  "*Lab Type:* " ++ labType ++ nl ++ nl ++
  "To check status, use: lab status " ++ bookingId.

Definition view_header : string := "*📋 Lab Bookings List*" ++ nl ++ nl.

(** What the callback of [forEach] appends for [booking] at [index]. *)
Definition view_entry (index : nat) (booking : Booking) : string :=
  "*Booking #" ++ N_toString (N.of_nat (index + 1)) ++ "*" ++ nl ++
  "ID: " ++ id booking ++ nl ++
  "Customer: " ++ customerName booking ++ nl ++
  "Date: " ++ date booking ++ nl ++
  "Time: " ++ time booking ++ nl ++
  "Lab Type: " ++ labType booking ++ nl ++
  "Status: " ++ status booking ++ nl ++ nl.

(** [bookings.forEach((booking, index) => { response += ... })], from
    [index] on. *)
Fixpoint forEach_view (l : list Booking) (index : nat) (response : string)
  : string :=
  match l with
  | [] => response
  | booking :: l' =>
      forEach_view l' (S index) (response ++ view_entry index booking)
  end.

(** ** The handler *)

Section Handler.

(** The two library functions whose result depends on Unicode tables or on
    the locale of the host: [String.prototype.toLowerCase], and
    [new Date(t).toLocaleString()] as a function of the string [t]. *)
Variable toLowerCase : string -> string.
Variable toLocaleString : string -> string.

Definition msg_status (booking : Booking) : string :=
  "*🔍 Booking Status*" ++ nl ++ nl ++
  "*Booking ID:* " ++ id booking ++ nl ++
  "*Customer:* " ++ customerName booking ++ nl ++
  "*Date:* " ++ date booking ++ nl ++
  "*Time:* " ++ time booking ++ nl ++
  "*Lab Type:* " ++ labType booking ++ nl ++
  "*Status:* " ++ status booking ++ nl ++
  "*Booked on:* " ++ toLocaleString (bookingTime booking).

(** [`LAB${Date.now().toString().slice(-6)}`] *)
Definition new_id (env : Env) : string :=
  "LAB" ++ slice (-6) (Z_toString (now env)).

(** case "book" *)
Definition case_book (env : Env) (args : list string) (bookingsData : Document)
  : M string :=
  if (List.length args <? 5)%nat then ret msg_missing
  else
    let name := arg 1 args in
    let date := arg 2 args in
    let time := arg 3 args in
    let labType := arg 4 args in
    if negb (test date_regex date) then ret msg_bad_date
    else if negb (test time_regex time) then ret msg_bad_time
    else
      let bookingId := new_id env in
      let newBooking :=
        {| id := bookingId; customerName := name; date := date; time := time;
           labType := labType; status := "confirmed";
           bookingTime := iso_now env |} in
      l <- bookings_of bookingsData ;;
      let bookingsData := {| bookings := Some (l ++ [newBooking])%list |} in
      saved <- saveBookings env bookingsData ;;
      if saved : bool
      then ret (msg_confirmed bookingId name date time labType)
      else ret msg_save_failed.

(** case "view" *)
Definition case_view (bookingsData : Document) : M string :=
  match bookings bookingsData with
  | None => ret msg_no_bookings
  | Some l =>
      if (List.length l =? 0)%nat then ret msg_no_bookings
      else ret (forEach_view l 0 view_header)
  end.

(** case "cancel" *)
Definition case_cancel (env : Env) (args : list string) (bookingsData : Document)
  : M string :=
  if falsy (nth_error args 1) then ret msg_cancel_no_id
  else
    let cancelId := arg 1 args in
    l <- bookings_of bookingsData ;;
    let bookingIndex := findIndex (fun b => String.eqb (id b) cancelId) l in
    if bookingIndex =? -1 then ret (msg_not_found cancelId)
    else
      match nth_error l (Z.to_nat bookingIndex) with
      | None => throw TypeError
      | Some _ =>
          let bookingsData :=
            {| bookings :=
                 Some (update_at (Z.to_nat bookingIndex)
                         (set_status "cancelled") l) |} in
          cancelSaved <- saveBookings env bookingsData ;;
          if cancelSaved : bool
          then ret (msg_cancelled cancelId)
          else ret msg_cancel_failed
      end.

(** case "status" *)
Definition case_status (args : list string) (bookingsData : Document)
  : M string :=
  if falsy (nth_error args 1) then ret msg_status_no_id
  else
    let statusId := arg 1 args in
    l <- bookings_of bookingsData ;;
    match find (fun b => String.eqb (id b) statusId) l with
    | None => ret (msg_not_found statusId)
    | Some booking => ret (msg_status booking)
    end.

(** [switch (action)] *)
Definition switch_action (env : Env) (action : string) (args : list string)
    (bookingsData : Document) : M string :=
  if String.eqb action "book" then case_book env args bookingsData
  else if String.eqb action "view" then case_view bookingsData
  else if String.eqb action "cancel" then case_cancel env args bookingsData
  else if String.eqb action "status" then case_status args bookingsData
  else ret msg_unknown.

(** The [catch] clause of the handler. *)
Definition on_error (error : Error) : M string :=
  console_error error ;; ret msg_error.

(** The handler registered under [nomCom: "lab"]; its result is the text
    given to [repondre]. *)
Definition lab (env : Env) (args : list string) : M string :=
  if falsy (nth_error args 0) then ret msg_help
  else
    let action := toLowerCase (arg 0 args) in
    try_catch
      (bookingsData <- loadBookings ;;
       switch_action env action args bookingsData)
      on_error.

(** One invocation on a bookings file, with an empty trace to start. *)
Definition run (env : Env) (args : list string) (d : Disk) : result string * State :=
  lab env args {| disk := d; trace := [] |}.

Definition reply_of (r : result string * State) : option string :=
  match fst r with
  | Ok text => Some text
  | Throw _ => None
  end.

Definition disk_of (r : result string * State) : Disk := disk (snd r).
Definition trace_of (r : result string * State) : list Event := trace (snd r).

End Handler.

(** ** Definitions used to state the properties *)

(** [/^LAB\d{6}$/] *)
Definition id_regex : list piece :=
  [times (Lit "L") 1; times (Lit "A") 1; times (Lit "B") 1; times Digit 6].

(** The strings that an anchored sequence of pieces matches: [a{min,max}]
    followed by [ps] matches [k] characters that [a] matches, with [k]
    from [min] to [max], followed by a string that [ps] matches. *)
Fixpoint all_match (a : atom) (s : string) : bool :=
  match s with
  | EmptyString => true
  | String c s' => atom_matches a c && all_match a s'
  end.

Inductive matches : list piece -> string -> Prop :=
| matches_end : matches [] ""
| matches_piece (p : piece) (ps : list piece) (pre rest : string) :
    (p_min p <= String.length pre <= p_max p)%nat ->
    all_match (p_atom p) pre = true ->
    matches ps rest ->
    matches (p :: ps) (pre ++ rest).

(** The number that a string of decimal digits denotes, after [acc]. *)
Fixpoint N_of_digits_from (acc : N) (s : string) : N :=
  match s with
  | EmptyString => acc
  | String c s' => N_of_digits_from (10 * acc + (N_of_ascii c - 48))%N s'
  end.

Definition N_of_digits (s : string) : N := N_of_digits_from 0 s.

Fixpoint all_digits (s : string) : bool :=
  match s with
  | EmptyString => true
  | String c s' => is_digit c && all_digits s'
  end.

(** [sub] occurs in [s]. *)
Definition contains (sub s : string) : Prop :=
  exists pre post, s = pre ++ sub ++ post.

(** The document that [loadBookings] returns on a given file. *)
Definition loaded (d : Disk) : Document :=
  match d with
  | Some (Json doc) => doc
  | Some (Garbage _) | None => empty_document
  end.

(** The documents given to [saveBookings], and those written to the file. *)
Definition save_calls (t : list Event) : list Document :=
  flat_map (fun ev => match ev with SaveCalled d => [d] | _ => [] end) t.

Definition file_writes (t : list Event) : list Document :=
  flat_map (fun ev => match ev with WriteFile d => [d] | _ => [] end) t.

(** [saveBookings] returns [true]. *)
Definition save_succeeds (env : Env) : bool := mkdir_ok env && write_ok env.

(** Every record of the store has an id that starts with "LAB", as the
    ids that case "book" makes do. *)
Definition ids_well_formed (d : Disk) : Prop :=
  forall l b,
    bookings (loaded d) = Some l -> In b l -> exists t, id b = "LAB" ++ t.

(** The sample environment with a file system that refuses the write,
    with one that cannot make the directory, and the sample environment
    1000 seconds later. *)
Definition sample_env_failing : Env :=
  {| now := 1747749600123; iso_now := "2025-05-20T14:00:00.123Z";
     mkdir_ok := true; write_ok := false |}.

Definition sample_env_no_dir : Env :=
  {| now := 1747749600123; iso_now := "2025-05-20T14:00:00.123Z";
     mkdir_ok := false; write_ok := true |}.

Definition sample_env_later : Env :=
  {| now := 1747750600123; iso_now := "2025-05-20T14:16:40.123Z";
     mkdir_ok := true; write_ok := true |}.

(** The errors given to [console.error], and the number of calls of
    [loadBookings]. *)
Definition error_logs (t : list Event) : list Error :=
  flat_map (fun ev => match ev with ConsoleError e => [e] | _ => [] end) t.

Definition load_calls (t : list Event) : nat :=
  List.length
    (flat_map (fun ev => match ev with LoadCalled => [tt] | _ => [] end) t).

(** The store has a bookings list, and every record of it has an id that
    starts with "LAB" and the status "confirmed" or "cancelled". *)
Definition store_invariant (d : Disk) : Prop :=
  exists l,
    bookings (loaded d) = Some l /\
    forall b, In b l ->
      (exists t, id b = "LAB" ++ t) /\
      (status b = "confirmed" \/ status b = "cancelled").

(** A record without its status. *)
Definition erase_status (b : Booking) : Booking := set_status "" b.

(** The entries of the records of [l] one after the other, the first one
    displayed with the number [index + 1]. *)
Fixpoint entries_from (index : nat) (l : list Booking) : string :=
  match l with
  | [] => ""
  | booking :: l' => view_entry index booking ++ entries_from (S index) l'
  end.

(** A clock and a file system for the examples. *)
Definition sample_env : Env :=
  {| now := 1747749600123; iso_now := "2025-05-20T14:00:00.123Z";
     mkdir_ok := true; write_ok := true |}.

Definition sample_booking (i name st : string) : Booking :=
  {| id := i; customerName := name; date := "2025-05-20"; time := "14:00";
     labType := "chemistry"; status := st;
     bookingTime := "2025-05-20T14:00:00.123Z" |}.

(** A store in which two records share the id "LAB000002". *)
Definition sample_list : list Booking :=
  [sample_booking "LAB000001" "Alice" "confirmed";
   sample_booking "LAB000002" "Bob" "confirmed";
   sample_booking "LAB000002" "Carol" "confirmed"].

Definition sample_disk : Disk := Some (Json {| bookings := Some sample_list |}).

(** ASCII lower-casing, the restriction of [toLowerCase] to ASCII text. *)
Definition lower_char (c : ascii) : ascii :=
  let n := N_of_ascii c in
  if ((65 <=? n) && (n <=? 90))%N then ascii_of_N (n + 32) else c.

Fixpoint toLowerCase_ascii (s : string) : string :=
  match s with
  | EmptyString => EmptyString
  | String c s' => String (lower_char c) (toLowerCase_ascii s')
  end.

(** * Properties *)

(** ** The matcher and the language of a pattern *)

Lemma take_atoms_spec (a : atom) (n : nat) :
  forall s rest,
    take_atoms a n s = Some rest <->
    exists pre, s = pre ++ rest /\ String.length pre = n /\
                all_match a pre = true.
Proof.
  induction n as [|n IH]; intros s rest; cbn [take_atoms].
  - split.
    + intros [= ->]. exists "". repeat split.
    + intros (pre & -> & Hlen & _).
      destruct pre; [reflexivity | discriminate Hlen].
  - destruct s as [|c s].
    + split; [discriminate|].
      intros (pre & Hs & Hlen & _).
      destruct pre; [discriminate Hlen | discriminate Hs].
    + destruct (atom_matches a c) eqn:Hc.
      * rewrite IH. split.
        -- intros (pre & -> & Hlen & Hall). exists (String c pre).
           cbn. rewrite Hc, Hall, Hlen. repeat split.
        -- intros (pre & Hs & Hlen & Hall).
           destruct pre as [|c' pre]; [discriminate Hlen|].
           cbn in Hs, Hlen, Hall. injection Hs as <- ->.
           apply andb_prop in Hall. destruct Hall as [_ Hall].
           exists pre. repeat split; [lia | exact Hall].
      * split; [discriminate|].
        intros (pre & Hs & Hlen & Hall).
        destruct pre as [|c' pre]; [discriminate Hlen|].
        cbn in Hs, Hall. injection Hs as <- _.
        rewrite Hc in Hall. discriminate Hall.
Qed.

(** The matcher decides the language of the pattern. *)
Lemma match_pieces_spec (ps : list piece) :
  forall s, match_pieces ps s = true <-> matches ps s.
Proof.
  induction ps as [|p ps IH]; intros s; cbn [match_pieces].
  - rewrite String.eqb_eq. split.
    + intros ->. constructor.
    + intros H. inversion H. reflexivity.
  - rewrite existsb_exists. split.
    + intros (k & Hk & Hm). apply in_seq in Hk.
      destruct (take_atoms (p_atom p) k s) as [rest|] eqn:Ht;
        [|discriminate Hm].
      apply take_atoms_spec in Ht. destruct Ht as (pre & -> & Hlen & Hall).
      constructor; [lia | exact Hall | apply IH; exact Hm].
    + intros H. inversion H as [|p' ps' pre rest Hlen Hall Hrest]; subst.
      exists (String.length pre). split.
      * apply in_seq. lia.
      * assert (Ht : take_atoms (p_atom p) (String.length pre) (pre ++ rest)
                     = Some rest).
        { apply take_atoms_spec. exists pre. repeat split. exact Hall. }
        rewrite Ht. apply IH. exact Hrest.
Qed.

Lemma test_spec (re : list piece) (s : string) :
  test re s = true <-> matches re s.
Proof. apply match_pieces_spec. Qed.

Lemma test_false_spec (re : list piece) (s : string) :
  test re s = false <-> ~ matches re s.
Proof.
  rewrite <- test_spec. destruct (test re s); split; intros H;
    try reflexivity; try discriminate; try congruence.
Qed.

(** ** Decimal digits and the booking id *)

Lemma is_digit_digit_char (d : N) : (d < 10)%N -> is_digit (digit_char d) = true.
Proof.
  intros Hd. unfold is_digit, digit_char.
  rewrite N_ascii_embedding by lia.
  apply andb_true_intro; split; apply N.leb_le; lia.
Qed.

Lemma all_digits_digits_aux (fuel : nat) :
  forall n acc, all_digits acc = true -> all_digits (digits_aux fuel n acc) = true.
Proof.
  induction fuel as [|fuel IH]; intros n acc Hacc; simpl; [exact Hacc|].
  assert (Hacc' : all_digits (String (digit_char (n mod 10)) acc) = true).
  { simpl. rewrite Hacc, is_digit_digit_char; [reflexivity|].
    apply N.mod_lt. discriminate. }
  destruct (n / 10 =? 0)%N; [exact Hacc'|]. apply IH. exact Hacc'.
Qed.

Lemma length_digits_aux_ge (fuel : nat) :
  forall n acc, (String.length acc <= String.length (digits_aux fuel n acc))%nat.
Proof.
  induction fuel as [|fuel IH]; intros n acc; simpl; [lia|].
  destruct (n / 10 =? 0)%N; simpl; [lia|].
  specialize (IH (n / 10)%N (String (digit_char (n mod 10)) acc)).
  simpl in IH. lia.
Qed.

(** A number of at least [10^k] has more than [k] digits, fuel permitting. *)
Lemma length_digits_aux_pow (k : nat) :
  forall fuel n acc,
    (10 ^ N.of_nat k <= n)%N -> (k < fuel)%nat ->
    (String.length acc + k + 1 <= String.length (digits_aux fuel n acc))%nat.
Proof.
  induction k as [|k IH]; intros fuel n acc Hn Hfuel.
  - destruct fuel as [|fuel]; [lia|]. simpl.
    destruct (n / 10 =? 0)%N; simpl; [lia|].
    pose proof (length_digits_aux_ge fuel (n / 10)%N
                  (String (digit_char (n mod 10)) acc)) as H.
    simpl in H. lia.
  - destruct fuel as [|fuel]; [lia|]. simpl.
    assert (Hdiv : (10 ^ N.of_nat k <= n / 10)%N).
    { replace (N.of_nat (S k)) with (N.succ (N.of_nat k)) in Hn by lia.
      rewrite N.pow_succ_r' in Hn.
      apply N.div_le_lower_bound; lia. }
    destruct (N.eqb_spec (n / 10) 0) as [E|_].
    + exfalso. assert (0 < 10 ^ N.of_nat k)%N by (apply N.neq_0_lt_0, N.pow_nonzero; discriminate).
      lia.
    + specialize (IH fuel (n / 10)%N (String (digit_char (n mod 10)) acc) Hdiv).
      simpl in IH. lia.
Qed.

Lemma length_N_toString_6 (n : N) :
  (100000 <= n)%N -> (6 <= String.length (N_toString n))%nat.
Proof.
  intros Hn. unfold N_toString.
  pose proof (length_digits_aux_pow 5 (S (N.to_nat (N.log2 n))) n "") as H.
  simpl String.length in H.
  assert (Hlog : (16 <= N.log2 n)%N).
  { change 16%N with (N.log2 100000). apply N.log2_le_mono. exact Hn. }
  apply H; [exact Hn | lia].
Qed.

Lemma all_digits_N_toString (n : N) : all_digits (N_toString n) = true.
Proof. apply all_digits_digits_aux. reflexivity. Qed.

Lemma all_digits_substring (s : string) :
  forall n m, all_digits s = true -> all_digits (substring n m s) = true.
Proof.
  induction s as [|c s IH]; intros n m Hs.
  - destruct n, m; reflexivity.
  - simpl in Hs. apply andb_prop in Hs. destruct Hs as [Hc Hs].
    destruct n as [|n]; destruct m as [|m]; simpl; auto.
    rewrite Hc. simpl. apply IH. exact Hs.
Qed.

Lemma length_substring (s : string) :
  forall n m, (n + m <= String.length s)%nat ->
              String.length (substring n m s) = m.
Proof.
  induction s as [|c s IH]; intros n m H; simpl in H.
  - assert (n = O) by lia. assert (m = O) by lia. subst. reflexivity.
  - destruct n as [|n]; destruct m as [|m]; simpl; try reflexivity.
    + f_equal. apply IH. lia.
    + apply IH. lia.
    + apply IH. lia.
Qed.

(** The last six characters of a string of at least six digits. *)
Lemma slice_last_6 (s : string) :
  all_digits s = true -> (6 <= String.length s)%nat ->
  all_digits (slice (-6) s) = true /\ String.length (slice (-6) s) = 6%nat.
Proof.
  intros Hd Hlen. unfold slice. cbn [Z.ltb Z.compare].
  split.
  - apply all_digits_substring. exact Hd.
  - rewrite length_substring; lia.
Qed.

(** *** The digits denote the number *)

Lemma N_of_digits_from_acc (s : string) :
  forall acc,
    N_of_digits_from acc s =
    (acc * 10 ^ N.of_nat (String.length s) + N_of_digits s)%N.
Proof.
  unfold N_of_digits.
  induction s as [|c s IH]; intros acc; cbn [N_of_digits_from String.length].
  - cbn. lia.
  - rewrite (IH (10 * acc + (N_of_ascii c - 48))%N).
    rewrite (IH (10 * 0 + (N_of_ascii c - 48))%N).
    rewrite Nat2N.inj_succ, N.pow_succ_r'. lia.
Qed.

Lemma N_of_digits_cons (c : ascii) (s : string) :
  N_of_digits (String c s) =
  ((N_of_ascii c - 48) * 10 ^ N.of_nat (String.length s) + N_of_digits s)%N.
Proof.
  unfold N_of_digits at 1. cbn [N_of_digits_from].
  rewrite N_of_digits_from_acc. lia.
Qed.

Lemma string_length_app (a b : string) :
  String.length (a ++ b) = (String.length a + String.length b)%nat.
Proof. induction a as [|c a IH]; simpl; [reflexivity | now rewrite IH]. Qed.

Lemma N_of_digits_app (a b : string) :
  N_of_digits (a ++ b) =
  (N_of_digits a * 10 ^ N.of_nat (String.length b) + N_of_digits b)%N.
Proof.
  induction a as [|c a IH].
  { change ("" ++ b) with b. change (N_of_digits "") with 0%N. lia. }
  change (String c a ++ b) with (String c (a ++ b)).
  rewrite !N_of_digits_cons, IH, string_length_app.
  rewrite Nat2N.inj_add, N.pow_add_r. ring.
Qed.

Lemma digit_char_value (d : N) :
  (d < 10)%N -> (N_of_ascii (digit_char d) - 48)%N = d.
Proof.
  intros Hd. unfold digit_char. rewrite N_ascii_embedding by lia. lia.
Qed.

Lemma N_of_digits_digits_aux (fuel : nat) :
  forall n acc,
    (n < 10 ^ N.of_nat fuel)%N -> (0 < fuel)%nat ->
    N_of_digits (digits_aux fuel n acc) =
    (n * 10 ^ N.of_nat (String.length acc) + N_of_digits acc)%N.
Proof.
  induction fuel as [|fuel IH]; intros n acc Hn Hfuel; [lia|].
  cbn [digits_aux].
  assert (Hmod : (n mod 10 < 10)%N) by (apply N.mod_lt; discriminate).
  pose proof (N.div_mod n 10 ltac:(discriminate)) as Hdm.
  destruct (N.eqb_spec (n / 10) 0) as [E|E].
  - rewrite N_of_digits_cons, digit_char_value by exact Hmod.
    rewrite E in Hdm. replace (n mod 10)%N with n by lia. reflexivity.
  - assert (Hdiv : (n / 10 < 10 ^ N.of_nat fuel)%N).
    { rewrite Nat2N.inj_succ, N.pow_succ_r' in Hn.
      apply N.Div0.div_lt_upper_bound. exact Hn. }
    assert (Hf : (0 < fuel)%nat).
    { destruct fuel; [|lia]. cbn in Hdiv. lia. }
    rewrite (IH _ _ Hdiv Hf).
    rewrite N_of_digits_cons, digit_char_value by exact Hmod.
    cbn [String.length]. rewrite Nat2N.inj_succ, N.pow_succ_r'. lia.
Qed.

Lemma N_of_digits_N_toString (n : N) : N_of_digits (N_toString n) = n.
Proof.
  unfold N_toString. rewrite N_of_digits_digits_aux; [cbn; lia | | lia].
  rewrite Nat2N.inj_succ, N2Nat.id.
  destruct (N.eq_dec n 0) as [->|Hn]; [reflexivity|].
  destruct (N.log2_spec n) as [_ Hlt]; [lia|].
  eapply N.lt_le_trans; [exact Hlt|].
  apply N.pow_le_mono_l. lia.
Qed.

Lemma N_of_digits_bound (s : string) :
  all_digits s = true -> (N_of_digits s < 10 ^ N.of_nat (String.length s))%N.
Proof.
  induction s as [|c s IH]; intros Hd; [cbn; lia|].
  cbn [all_digits] in Hd. apply andb_prop in Hd. destruct Hd as [Hc Hs].
  rewrite N_of_digits_cons. cbn [String.length].
  rewrite Nat2N.inj_succ, N.pow_succ_r'.
  unfold is_digit in Hc. apply andb_prop in Hc. destruct Hc as [Hlo Hhi].
  apply N.leb_le in Hlo, Hhi. specialize (IH Hs).
  assert (Hv : (N_of_ascii c - 48 <= 9)%N) by lia.
  nia.
Qed.

Lemma substring_split (s : string) :
  forall n, (n <= String.length s)%nat ->
    s = substring 0 n s ++ substring n (String.length s - n) s.
Proof.
  induction s as [|c s IH]; intros n Hn; cbn [String.length] in *.
  - assert (n = O) by lia. subst. reflexivity.
  - destruct n as [|n].
    + cbn. f_equal. specialize (IH O ltac:(lia)).
      rewrite Nat.sub_0_r in IH.
      destruct s; [reflexivity|]. cbn in IH |- *. exact IH.
    + cbn. f_equal. apply IH. lia.
Qed.

(** The last six characters of the decimal form of [n] denote
    [n mod 1000000]. *)
Lemma slice_last_6_value (n : N) :
  (100000 <= n)%N ->
  N_of_digits (slice (-6) (N_toString n)) = (n mod 1000000)%N.
Proof.
  intros Hn.
  pose proof (length_N_toString_6 n Hn) as Hlen.
  pose proof (all_digits_N_toString n) as Hd.
  destruct (slice_last_6 _ Hd Hlen) as [Hd6 Hl6].
  pose proof (N_of_digits_N_toString n) as Hval.
  pose proof (substring_split (N_toString n)
                (String.length (N_toString n) - 6) ltac:(lia)) as Hsplit.
  assert (Hsuf : slice (-6) (N_toString n) =
                 substring (String.length (N_toString n) - 6)
                   (String.length (N_toString n) -
                    (String.length (N_toString n) - 6))
                   (N_toString n)).
  { unfold slice. cbn [Z.ltb Z.compare]. f_equal; lia. }
  rewrite <- Hsuf in Hsplit.
  rewrite Hsplit in Hval at 1. rewrite N_of_digits_app, Hl6 in Hval.
  pose proof (N_of_digits_bound _ Hd6) as Hb. rewrite Hl6 in Hb.
  change (10 ^ N.of_nat 6)%N with 1000000%N in Hval, Hb.
  apply (N.mod_unique n 1000000
           (N_of_digits (substring 0 (String.length (N_toString n) - 6)
                           (N_toString n)))); [exact Hb | lia].
Qed.

Lemma id_regex_digits (t : string) :
  all_digits t = true -> String.length t = 6%nat ->
  test id_regex ("LAB" ++ t) = true.
Proof.
  intros Hd Hlen.
  do 6 (destruct t as [|? t]; [discriminate Hlen|]).
  destruct t; [|discriminate Hlen].
  cbn [all_digits] in Hd.
  repeat (apply andb_prop in Hd; destruct Hd as [? Hd]).
  unfold test, id_regex. cbn. 
  repeat match goal with H : is_digit _ = true |- _ => rewrite H; clear H end.
  reflexivity.
Qed.

(** ** Occurrences in a string *)

Lemma string_app_assoc (a b c : string) : (a ++ b) ++ c = a ++ b ++ c.
Proof. induction a as [|x a IH]; simpl; [reflexivity | now rewrite IH]. Qed.

Lemma string_app_nil_r (a : string) : a ++ "" = a.
Proof. induction a as [|x a IH]; simpl; [reflexivity | now rewrite IH]. Qed.

Lemma contains_refl (x : string) : contains x x.
Proof. exists "", "". simpl. now rewrite string_app_nil_r. Qed.

Lemma contains_here (x post : string) : contains x (x ++ post).
Proof. exists "", post. reflexivity. Qed.

Lemma contains_append_r (x p s : string) : contains x s -> contains x (p ++ s).
Proof.
  intros [pre [post ->]]. exists (p ++ pre), post.
  now rewrite string_app_assoc.
Qed.

Ltac find_occurrence :=
  solve [ repeat first [ apply contains_here | apply contains_refl
                       | apply contains_append_r ] ].

(** ** The two helpers, run *)

Lemma read_and_parse_run (s : State) :
  read_and_parse s =
    match disk s with
    | Some (Json d) => (Ok d, s)
    | Some (Garbage _) => (Throw SyntaxError, s)
    | None => (Throw ENOENT, s)
    end.
Proof.
  unfold read_and_parse, bind, readFile.
  destruct (disk s) as [[t|d]|]; reflexivity.
Qed.

Lemma loadBookings_run (s : State) :
  loadBookings s =
    (Ok (loaded (disk s)),
     {| disk := disk s; trace := trace s ++ [LoadCalled] |}).
Proof.
  unfold loadBookings, bind, emit, try_catch.
  rewrite read_and_parse_run. cbn [disk].
  destruct (disk s) as [[t|d]|]; reflexivity.
Qed.

Lemma saveBookings_run (env : Env) (d : Document) (s : State) :
  saveBookings env d s =
    if mkdir_ok env then
      if write_ok env then
        (Ok true,
         {| disk := Some (Json d);
            trace := trace s ++ [SaveCalled d; Mkdir; WriteFile d] |})
      else
        (Ok false,
         {| disk := disk s;
            trace := trace s ++ [SaveCalled d; Mkdir; ConsoleError EIO] |})
    else
      (Ok false,
       {| disk := disk s;
          trace := trace s ++ [SaveCalled d; ConsoleError EIO] |}).
Proof.
  unfold saveBookings, bind, try_catch, mkdir, writeFile, console_error,
    emit, throw, ret.
  destruct (mkdir_ok env), (write_ok env); cbn [disk trace];
    rewrite <- ?app_assoc; reflexivity.
Qed.

(** C7: [loadBookings] always returns a document and never throws.  When
    reading and parsing the file succeed it returns the parsed document;
    when either fails, whatever the error, it returns exactly the empty
    document [{bookings: []}].  It leaves the file as it is. *)
Theorem C7_loadBookings_never_throws (s : State) :
  exists doc,
    fst (loadBookings s) = Ok doc /\
    disk (snd (loadBookings s)) = disk s /\
    (doc = empty_document \/ fst (read_and_parse s) = Ok doc) /\
    (forall parsed, fst (read_and_parse s) = Ok parsed -> doc = parsed) /\
    (forall e, fst (read_and_parse s) = Throw e -> doc = empty_document) /\
    (disk s = None -> doc = empty_document) /\
    (forall text, disk s = Some (Garbage text) -> doc = empty_document) /\
    (forall d, disk s = Some (Json d) -> doc = d).
Proof.
  exists (loaded (disk s)).
  rewrite loadBookings_run, read_and_parse_run. cbn [fst snd disk].
  destruct (disk s) as [[t|d]|]; cbn [loaded fst];
    repeat split; auto; intros; congruence.
Qed.

(** ** The router *)

Section Router.

Variable toLowerCase : string -> string.
Variable toLocaleString : string -> string.

Local Abbreviation RUN := (run toLowerCase toLocaleString).
Local Abbreviation SWITCH := (switch_action toLocaleString).

Lemma falsy_first_spec (args : list string) :
  falsy (nth_error args 0) = true <->
  args = [] \/ exists rest, args = "" :: rest.
Proof.
  destruct args as [|a0 rest]; cbn.
  - split; auto.
  - rewrite String.eqb_eq. split.
    + intros ->. right. eauto.
    + intros [H|[rest' H]]; congruence.
Qed.

Lemma run_help (env : Env) (args : list string) (d : Disk) :
  falsy (nth_error args 0) = true ->
  RUN env args d = (Ok msg_help, {| disk := d; trace := [] |}).
Proof.
  intros H. unfold run, lab. rewrite H. reflexivity.
Qed.

Lemma run_dispatch (env : Env) (a0 : string) (rest : list string) (d : Disk) :
  a0 <> "" ->
  RUN env (a0 :: rest) d =
    try_catch
      (SWITCH env (toLowerCase a0) (a0 :: rest) (loaded d))
      on_error
      {| disk := d; trace := [LoadCalled] |}.
Proof.
  intros H. apply String.eqb_neq in H.
  unfold run, lab. cbn [nth_error falsy]. rewrite H.
  unfold try_catch at 1. unfold bind at 1. rewrite loadBookings_run.
  reflexivity.
Qed.

(** The case bodies read [args.length] and [args[1]] to [args[4]] only. *)
Lemma switch_action_head (env : Env) (action a0 a0' : string)
    (rest : list string) (doc : Document) :
  SWITCH env action (a0 :: rest) doc =
  SWITCH env action (a0' :: rest) doc.
Proof. reflexivity. Qed.

Lemma run_book (env : Env) (a0 : string) (rest : list string) (d : Disk) :
  a0 <> "" -> toLowerCase a0 = "book" ->
  RUN env (a0 :: rest) d =
    try_catch (case_book env (a0 :: rest) (loaded d)) on_error
      {| disk := d; trace := [LoadCalled] |}.
Proof.
  intros H0 Ha. rewrite run_dispatch by exact H0.
  unfold switch_action. rewrite Ha. reflexivity.
Qed.

Lemma run_view (env : Env) (a0 : string) (rest : list string) (d : Disk) :
  a0 <> "" -> toLowerCase a0 = "view" ->
  RUN env (a0 :: rest) d =
    try_catch (case_view (loaded d)) on_error
      {| disk := d; trace := [LoadCalled] |}.
Proof.
  intros H0 Ha. rewrite run_dispatch by exact H0.
  unfold switch_action. rewrite Ha. reflexivity.
Qed.

Lemma run_cancel (env : Env) (a0 : string) (rest : list string) (d : Disk) :
  a0 <> "" -> toLowerCase a0 = "cancel" ->
  RUN env (a0 :: rest) d =
    try_catch (case_cancel env (a0 :: rest) (loaded d)) on_error
      {| disk := d; trace := [LoadCalled] |}.
Proof.
  intros H0 Ha. rewrite run_dispatch by exact H0.
  unfold switch_action. rewrite Ha. reflexivity.
Qed.

Lemma run_status (env : Env) (a0 : string) (rest : list string) (d : Disk) :
  a0 <> "" -> toLowerCase a0 = "status" ->
  RUN env (a0 :: rest) d =
    try_catch (case_status toLocaleString (a0 :: rest) (loaded d)) on_error
      {| disk := d; trace := [LoadCalled] |}.
Proof.
  intros H0 Ha. rewrite run_dispatch by exact H0.
  unfold switch_action. rewrite Ha. reflexivity.
Qed.

Lemma run_unknown (env : Env) (a0 : string) (rest : list string) (d : Disk) :
  a0 <> "" ->
  toLowerCase a0 <> "book" -> toLowerCase a0 <> "view" ->
  toLowerCase a0 <> "cancel" -> toLowerCase a0 <> "status" ->
  RUN env (a0 :: rest) d =
    (Ok msg_unknown, {| disk := d; trace := [LoadCalled] |}).
Proof.
  intros H0 Hb Hv Hc Hs. rewrite run_dispatch by exact H0.
  apply String.eqb_neq in Hb, Hv, Hc, Hs.
  unfold switch_action. rewrite Hb, Hv, Hc, Hs. reflexivity.
Qed.

(** ** case "book" *)

(** Past the first 100 seconds of the epoch the id is "LAB" followed by
    six digits, those of [Date.now() mod 1000000]. *)
Lemma new_id_digits (env : Env) :
  100000 <= now env ->
  exists digits,
    new_id env = "LAB" ++ digits /\
    String.length digits = 6%nat /\
    all_digits digits = true /\
    N_of_digits digits = (Z.to_N (now env) mod 1000000)%N.
Proof.
  intros Hnow. exists (slice (-6) (Z_toString (now env))).
  split; [reflexivity|].
  unfold Z_toString.
  destruct (Z.ltb_spec (now env) 0) as [Hneg|_]; [lia|].
  destruct (slice_last_6 (N_toString (Z.to_N (now env)))) as [Hd Hl].
  - apply all_digits_N_toString.
  - apply length_N_toString_6. lia.
  - repeat split; [exact Hl | exact Hd |].
    apply slice_last_6_value. lia.
Qed.

Lemma new_id_matches (env : Env) :
  100000 <= now env -> test id_regex (new_id env) = true.
Proof.
  intros Hnow.
  destruct (new_id_digits env Hnow) as (digits & -> & Hl & Hd & _).
  apply id_regex_digits; assumption.
Qed.

(** What a [book] invocation that passes its checks does on a store with
    a bookings list. *)
Lemma run_book_valid
    (env : Env) (a0 name dateArg timeArg labArg : string)
    (rest : list string) (d : Disk) (l : list Booking) :
  a0 <> "" -> toLowerCase a0 = "book" ->
  test date_regex dateArg = true ->
  test time_regex timeArg = true ->
  bookings (loaded d) = Some l ->
  let newBooking :=
    {| id := new_id env; customerName := name; date := dateArg;
       time := timeArg; labType := labArg; status := "confirmed";
       bookingTime := iso_now env |} in
  let doc := {| bookings := Some (l ++ [newBooking])%list |} in
  RUN env (a0 :: name :: dateArg :: timeArg :: labArg :: rest) d =
    if mkdir_ok env then
      if write_ok env then
        (Ok (msg_confirmed (new_id env) name dateArg timeArg labArg),
         {| disk := Some (Json doc);
            trace := [LoadCalled; SaveCalled doc; Mkdir; WriteFile doc] |})
      else
        (Ok msg_save_failed,
         {| disk := d;
            trace := [LoadCalled; SaveCalled doc; Mkdir; ConsoleError EIO] |})
    else
      (Ok msg_save_failed,
       {| disk := d;
          trace := [LoadCalled; SaveCalled doc; ConsoleError EIO] |}).
Proof.
  intros H0 Ha Hdate Htime Hl newBooking doc.
  rewrite run_book by assumption.
  unfold case_book. cbn [List.length Nat.ltb Nat.leb arg nth].
  rewrite Hdate, Htime. cbn [negb].
  unfold bookings_of. rewrite Hl.
  unfold try_catch, bind, ret. rewrite saveBookings_run. cbn [disk trace].
  destruct (mkdir_ok env), (write_ok env); reflexivity.
Qed.

(** C1: a [book] invocation with its four arguments present and of the
    right format, on a store with a bookings list [l], hands to
    [saveBookings] exactly once the store with one record appended at the
    end of [l]; the record has the given name, date, time and lab type
    verbatim, status "confirmed", and the id "LAB" followed by six digits,
    the last six of [Date.now()], so that it matches [^LAB\d{6}$].  When
    the save succeeds the file holds that store and the reply is the
    confirmation, which contains the id and the four fields. *)
Theorem C1_book_appends_record
    (env : Env) (a0 name dateArg timeArg labArg : string)
    (rest : list string) (d : Disk) (l : list Booking) :
  a0 <> "" -> toLowerCase a0 = "book" ->
  test date_regex dateArg = true ->
  test time_regex timeArg = true ->
  bookings (loaded d) = Some l ->
  100000 <= now env ->
  let r := RUN env (a0 :: name :: dateArg :: timeArg :: labArg :: rest) d in
  exists newBooking : Booking,
    save_calls (trace_of r) =
      [ {| bookings := Some (l ++ [newBooking])%list |} ] /\
    customerName newBooking = name /\
    date newBooking = dateArg /\
    time newBooking = timeArg /\
    labType newBooking = labArg /\
    status newBooking = "confirmed" /\
    bookingTime newBooking = iso_now env /\
    id newBooking = "LAB" ++ slice (-6) (Z_toString (now env)) /\
    (exists digits,
       id newBooking = "LAB" ++ digits /\
       String.length digits = 6%nat /\
       all_digits digits = true /\
       N_of_digits digits = (Z.to_N (now env) mod 1000000)%N) /\
    test id_regex (id newBooking) = true /\
    matches id_regex (id newBooking) /\
    (save_succeeds env = true ->
     disk_of r = Some (Json {| bookings := Some (l ++ [newBooking])%list |}) /\
     reply_of r =
       Some (msg_confirmed (id newBooking) name dateArg timeArg labArg) /\
     forall field,
       In field [id newBooking; name; dateArg; timeArg; labArg] ->
       exists text, reply_of r = Some text /\ contains field text).
Proof.
  intros H0 Ha Hdate Htime Hl Hnow r.
  pose proof (run_book_valid env a0 name dateArg timeArg labArg rest d l
                H0 Ha Hdate Htime Hl) as Hr.
  fold r in Hr. cbv zeta in Hr.
  eexists. split.
  { rewrite Hr. destruct (mkdir_ok env), (write_ok env); reflexivity. }
  cbn [id customerName date time labType status bookingTime].
  do 7 (split; [reflexivity|]).
  split; [apply new_id_digits; exact Hnow|].
  split; [apply new_id_matches; exact Hnow|].
  split; [apply test_spec, new_id_matches; exact Hnow|].
  intros Hsave. unfold save_succeeds in Hsave.
  apply andb_prop in Hsave. destruct Hsave as [Hm Hw].
  rewrite Hr, Hm, Hw. cbn [reply_of disk_of fst snd disk].
  split; [reflexivity|]. split; [reflexivity|].
  intros field Hin. eexists; split; [reflexivity|].
  unfold msg_confirmed. cbn [In] in Hin.
  destruct Hin as [<-|[<-|[<-|[<-|[<-|[]]]]]]; find_occurrence.
Qed.

(** What a [book] invocation with its four arguments does, by cases on the
    two format checks, on the store and on the outcome of the save. *)
Lemma run_book_cases
    (env : Env) (a0 name dateArg timeArg labArg : string)
    (rest : list string) (d : Disk) :
  a0 <> "" -> toLowerCase a0 = "book" ->
  let r := RUN env (a0 :: name :: dateArg :: timeArg :: labArg :: rest) d in
  (test date_regex dateArg = false /\
   r = (Ok msg_bad_date, {| disk := d; trace := [LoadCalled] |})) \/
  (test date_regex dateArg = true /\ test time_regex timeArg = false /\
   r = (Ok msg_bad_time, {| disk := d; trace := [LoadCalled] |})) \/
  (test date_regex dateArg = true /\ test time_regex timeArg = true /\
   ((bookings (loaded d) = None /\
     r = (Ok msg_error,
          {| disk := d; trace := [LoadCalled; ConsoleError TypeError] |})) \/
    (exists doc t,
       save_succeeds env = false /\
       r = (Ok msg_save_failed, {| disk := d; trace := LoadCalled :: SaveCalled doc :: t |}) /\
       file_writes t = []) \/
    (exists doc,
       save_succeeds env = true /\
       r = (Ok (msg_confirmed (new_id env) name dateArg timeArg labArg),
            {| disk := Some (Json doc);
               trace := [LoadCalled; SaveCalled doc; Mkdir; WriteFile doc] |})))).
Proof.
  intros H0 Ha r. subst r. rewrite run_book by assumption.
  unfold case_book. cbn [List.length Nat.ltb Nat.leb arg nth].
  destruct (test date_regex dateArg); cbn [negb]; [|left; split; reflexivity].
  right.
  destruct (test time_regex timeArg); cbn [negb];
    [|left; repeat split; reflexivity].
  right. repeat split.
  unfold bookings_of.
  destruct (bookings (loaded d)) as [l|]; [|left; split; reflexivity].
  right.
  unfold try_catch, bind, ret. rewrite saveBookings_run. cbn [disk trace].
  unfold save_succeeds.
  destruct (mkdir_ok env), (write_ok env); cbn [andb].
  - right. eexists. split; reflexivity.
  - left. do 2 eexists. repeat split.
  - left. do 2 eexists. repeat split.
  - left. do 2 eexists. repeat split.
Qed.

Lemma msg_bad_date_distinct (i n da ti la : string) :
  msg_bad_date <> msg_bad_time /\ msg_bad_date <> msg_error /\
  msg_bad_date <> msg_save_failed /\
  msg_bad_date <> msg_confirmed i n da ti la.
Proof. repeat split; discriminate. Qed.

Lemma msg_bad_time_distinct (i n da ti la : string) :
  msg_bad_time <> msg_bad_date /\ msg_bad_time <> msg_error /\
  msg_bad_time <> msg_save_failed /\
  msg_bad_time <> msg_confirmed i n da ti la.
Proof. repeat split; discriminate. Qed.

(** C3: a [book] invocation with its four arguments replies with the
    date-format message, without calling [saveBookings] or touching the
    file, exactly when its date does not match [^\d{4}-\d{2}-\d{2}$].
    "2025-5-1" does not match; "2025-05-01" matches, and so does
    "2025-13-99", which is no calendar date. *)
Theorem C3_book_date_check
    (env : Env) (a0 name dateArg timeArg labArg : string)
    (rest : list string) (d : Disk) :
  a0 <> "" -> toLowerCase a0 = "book" ->
  let r := RUN env (a0 :: name :: dateArg :: timeArg :: labArg :: rest) d in
  (reply_of r = Some msg_bad_date <-> test date_regex dateArg = false) /\
  (test date_regex dateArg = false ->
   disk_of r = d /\ save_calls (trace_of r) = [] /\
   file_writes (trace_of r) = []) /\
  (test date_regex dateArg = false <-> ~ matches date_regex dateArg) /\
  test date_regex "2025-5-1" = false /\
  test date_regex "2025-05-01" = true /\
  test date_regex "2025-13-99" = true.
Proof.
  intros H0 Ha r.
  pose proof (run_book_cases env a0 name dateArg timeArg labArg rest d H0 Ha)
    as Hcases.
  fold r in Hcases. cbv zeta in Hcases.
  pose proof (msg_bad_date_distinct (new_id env) name dateArg timeArg labArg)
    as (N1 & N2 & N3 & N4).
  split; [|split; [|split; [apply test_false_spec | repeat split]]].
  - destruct Hcases as [[Hd Hr]|[(Hd & Ht & Hr)|(Hd & Ht & Hrest)]].
    + rewrite Hr. split; auto.
    + rewrite Hr, Hd. cbn. split; [intros [=]; congruence | discriminate].
    + rewrite Hd.
      destruct Hrest as [[_ Hr]|[(doc & t & _ & Hr & _)|(doc & _ & Hr)]];
        rewrite Hr; cbn; (split; [intros [=]; congruence | discriminate]).
  - intros Hbad.
    destruct Hcases as [[Hd Hr]|[(Hd & _)|(Hd & _)]]; try congruence.
    rewrite Hr. repeat split.
Qed.

(** C4: a [book] invocation with its four arguments whose time does not
    match [^\d{1,2}:\d{2}$] is rejected with a validation message, without
    calling [saveBookings] or touching the file; once the date has passed
    its own check, which comes first, the reply is the time-format message
    exactly when the time does not match.  "9:5" does not match; "09:05"
    and "9:05" match, and so does "25:99", which is no time of day. *)
Theorem C4_book_time_check
    (env : Env) (a0 name dateArg timeArg labArg : string)
    (rest : list string) (d : Disk) :
  a0 <> "" -> toLowerCase a0 = "book" ->
  let r := RUN env (a0 :: name :: dateArg :: timeArg :: labArg :: rest) d in
  (test date_regex dateArg = true ->
   (reply_of r = Some msg_bad_time <-> test time_regex timeArg = false)) /\
  (reply_of r = Some msg_bad_time -> test time_regex timeArg = false) /\
  (test time_regex timeArg = false ->
   (reply_of r = Some msg_bad_time \/ reply_of r = Some msg_bad_date) /\
   disk_of r = d /\ save_calls (trace_of r) = [] /\
   file_writes (trace_of r) = []) /\
  (test time_regex timeArg = false <-> ~ matches time_regex timeArg) /\
  test time_regex "9:5" = false /\
  test time_regex "09:05" = true /\
  test time_regex "9:05" = true /\
  test time_regex "25:99" = true.
Proof.
  intros H0 Ha r.
  pose proof (run_book_cases env a0 name dateArg timeArg labArg rest d H0 Ha)
    as Hcases.
  fold r in Hcases. cbv zeta in Hcases.
  pose proof (msg_bad_time_distinct (new_id env) name dateArg timeArg labArg)
    as (N1 & N2 & N3 & N4).
  assert (Honly : reply_of r = Some msg_bad_time ->
                  test time_regex timeArg = false).
  { destruct Hcases as [[_ Hr]|[(_ & Ht & _)|(_ & _ & Hrest)]].
    - rewrite Hr. cbn. intros [=]; congruence.
    - intros _. exact Ht.
    - destruct Hrest as [[_ Hr]|[(doc & t & _ & Hr & _)|(doc & _ & Hr)]];
        rewrite Hr; cbn; intros [=]; congruence. }
  split; [|split; [exact Honly | split;
    [|split; [apply test_false_spec | repeat split]]]].
  - intros Hdate. split; [exact Honly|]. intros Ht.
    destruct Hcases as [[Hd _]|[(_ & _ & Hr)|(_ & Ht' & _)]];
      [congruence | | congruence].
    rewrite Hr. reflexivity.
  - intros Ht.
    destruct Hcases as [[_ Hr]|[(_ & _ & Hr)|(_ & Ht' & _)]];
      [| | congruence]; rewrite Hr; repeat split; auto.
Qed.

(** ** case "cancel" *)

Lemma findIndex_from_none {A} (p : A -> bool) (l : list A) :
  forall k, 0 <= k ->
    (forall x, In x l -> p x = false) -> findIndex_from p l k = -1.
Proof.
  induction l as [|x l IH]; intros k Hk Hall; simpl; [reflexivity|].
  rewrite (Hall x (or_introl eq_refl)).
  apply IH; [lia|]. intros y Hy. apply Hall. right. exact Hy.
Qed.

(** The first element that satisfies [p] is found at its position. *)
Lemma findIndex_from_first {A} (p : A -> bool) (pre : list A) (x : A)
    (post : list A) :
  forall k,
    (forall y, In y pre -> p y = false) -> p x = true ->
    findIndex_from p (pre ++ x :: post) k = k + Z.of_nat (List.length pre).
Proof.
  induction pre as [|y pre IH]; intros k Hpre Hx; simpl.
  - rewrite Hx. lia.
  - rewrite (Hpre y (or_introl eq_refl)).
    rewrite IH; [lia | | exact Hx].
    intros z Hz. apply Hpre. right. exact Hz.
Qed.

Lemma update_at_middle {A} (f : A -> A) (pre : list A) (x : A) (post : list A) :
  update_at (List.length pre) f (pre ++ x :: post) = (pre ++ f x :: post)%list.
Proof. induction pre as [|y pre IH]; simpl; [reflexivity | now rewrite IH]. Qed.

Lemma nth_error_middle {A} (pre : list A) (x : A) (post : list A) :
  nth_error (pre ++ x :: post) (List.length pre) = Some x.
Proof. induction pre as [|y pre IH]; simpl; [reflexivity | exact IH]. Qed.

Lemma run_cancel_not_found
    (env : Env) (a0 cancelId : string) (rest : list string)
    (d : Disk) (l : list Booking) :
  a0 <> "" -> toLowerCase a0 = "cancel" -> cancelId <> "" ->
  bookings (loaded d) = Some l ->
  (forall b, In b l -> id b <> cancelId) ->
  RUN env (a0 :: cancelId :: rest) d =
    (Ok (msg_not_found cancelId), {| disk := d; trace := [LoadCalled] |}).
Proof.
  intros H0 Ha Hid Hl Hnone.
  rewrite run_cancel by assumption.
  unfold case_cancel. cbn [nth_error falsy arg nth].
  apply String.eqb_neq in Hid. rewrite Hid.
  unfold bookings_of. rewrite Hl.
  unfold try_catch, bind, ret, findIndex.
  rewrite findIndex_from_none; [reflexivity | lia |].
  intros b Hb. apply String.eqb_neq. apply Hnone. exact Hb.
Qed.

(** C2, as the handler has it: [cancel] with a non-empty id that no
    record of the store has replies that the booking with this id was not
    found, the reply containing the id; [saveBookings] is not called and
    the file is left as it was. *)
Theorem C2_cancel_unknown_id
    (env : Env) (a0 cancelId : string) (rest : list string)
    (d : Disk) (l : list Booking) :
  a0 <> "" -> toLowerCase a0 = "cancel" ->
  cancelId <> "" ->
  bookings (loaded d) = Some l ->
  (forall b, In b l -> id b <> cancelId) ->
  let r := RUN env (a0 :: cancelId :: rest) d in
  reply_of r = Some (msg_not_found cancelId) /\
  contains cancelId (msg_not_found cancelId) /\
  disk_of r = d /\
  save_calls (trace_of r) = [] /\
  file_writes (trace_of r) = [] /\
  trace_of r = [LoadCalled].
Proof.
  intros H0 Ha Hid Hl Hnone r. subst r.
  rewrite (run_cancel_not_found env a0 cancelId rest d l) by assumption.
  repeat split.
  unfold msg_not_found. find_occurrence.
Qed.

(** A well-formed store has no record with an empty id. *)
Lemma ids_well_formed_nonempty (d : Disk) (l : list Booking) (b : Booking) :
  ids_well_formed d -> bookings (loaded d) = Some l -> In b l -> id b <> "".
Proof.
  intros Hwf Hl Hin Hempty. destruct (Hwf l b Hl Hin) as [t Ht].
  rewrite Hempty in Ht. discriminate Ht.
Qed.

(** The first element that satisfies [p] splits the list. *)
Lemma first_match_split {A} (p : A -> bool) (l : list A) :
  (exists x, In x l /\ p x = true) ->
  exists pre x post,
    l = (pre ++ x :: post)%list /\
    (forall y, In y pre -> p y = false) /\ p x = true.
Proof.
  induction l as [|a l IH]; intros [x [Hin Hp]]; [destruct Hin|].
  destruct (p a) eqn:Hpa.
  - exists [], a, l. repeat split; [intros y []|exact Hpa].
  - destruct IH as (pre & y & post & -> & Hpre & Hy).
    { destruct Hin as [->|Hin]; [congruence|]. exists x. split; assumption. }
    exists (a :: pre), y, post. repeat split; [|exact Hy].
    intros z [<-|Hz]; [exact Hpa | apply Hpre; exact Hz].
Qed.

Lemma set_status_idempotent (st : string) (b : Booking) :
  set_status st (set_status st b) = set_status st b.
Proof. reflexivity. Qed.

(** What [cancel] does when the first record with the given id is [b],
    after the records [pre]. *)
Lemma run_cancel_found
    (env : Env) (a0 cancelId : string) (rest : list string) (d : Disk)
    (pre : list Booking) (b : Booking) (post : list Booking) :
  a0 <> "" -> toLowerCase a0 = "cancel" -> cancelId <> "" ->
  bookings (loaded d) = Some (pre ++ b :: post)%list ->
  (forall y, In y pre -> id y <> cancelId) -> id b = cancelId ->
  let doc := {| bookings := Some (pre ++ set_status "cancelled" b :: post)%list |} in
  RUN env (a0 :: cancelId :: rest) d =
    if mkdir_ok env then
      if write_ok env then
        (Ok (msg_cancelled cancelId),
         {| disk := Some (Json doc);
            trace := [LoadCalled; SaveCalled doc; Mkdir; WriteFile doc] |})
      else
        (Ok msg_cancel_failed,
         {| disk := d;
            trace := [LoadCalled; SaveCalled doc; Mkdir; ConsoleError EIO] |})
    else
      (Ok msg_cancel_failed,
       {| disk := d;
          trace := [LoadCalled; SaveCalled doc; ConsoleError EIO] |}).
Proof.
  intros H0 Ha Hid Hl Hpre Hb doc.
  rewrite run_cancel by assumption.
  unfold case_cancel. cbn [nth_error falsy arg nth].
  apply String.eqb_neq in Hid. rewrite Hid.
  unfold bookings_of. rewrite Hl.
  unfold try_catch, bind, ret, findIndex.
  rewrite findIndex_from_first.
  2:{ intros y Hy. apply String.eqb_neq. apply Hpre. exact Hy. }
  2:{ apply String.eqb_eq. exact Hb. }
  destruct (Z.eqb_spec (0 + Z.of_nat (List.length pre)) (-1)) as [E|_]; [lia|].
  replace (Z.to_nat (0 + Z.of_nat (List.length pre))) with (List.length pre)
    by lia.
  rewrite nth_error_middle, update_at_middle.
  rewrite saveBookings_run. cbn [disk trace].
  destruct (mkdir_ok env), (write_ok env); reflexivity.
Qed.

(** C5: on a store with well-formed ids that has a record with the given
    id, [cancel] with that id, applied twice, finds the record both times
    and hands both times the same store to [saveBookings]: the one in which
    the first record of that id has the status "cancelled" and every other
    record is as it was.  Each reply is the success message when the save
    of that application succeeds, and after a first application that has
    saved, the second one leaves the file as the first one wrote it. *)
Theorem C5_cancel_twice
    (env1 env2 : Env) (a0 cancelId : string) (rest : list string)
    (d : Disk) (l : list Booking) :
  a0 <> "" -> toLowerCase a0 = "cancel" ->
  ids_well_formed d ->
  bookings (loaded d) = Some l ->
  (exists b, In b l /\ id b = cancelId) ->
  let r1 := RUN env1 (a0 :: cancelId :: rest) d in
  let r2 := RUN env2 (a0 :: cancelId :: rest) (disk_of r1) in
  exists pre b post,
    l = (pre ++ b :: post)%list /\
    (forall y, In y pre -> id y <> cancelId) /\ id b = cancelId /\
    status (set_status "cancelled" b) = "cancelled" /\
    let doc :=
      {| bookings := Some (pre ++ set_status "cancelled" b :: post)%list |} in
    save_calls (trace_of r1) = [doc] /\
    save_calls (trace_of r2) = [doc] /\
    reply_of r1 =
      Some (if save_succeeds env1 then msg_cancelled cancelId
            else msg_cancel_failed) /\
    reply_of r2 =
      Some (if save_succeeds env2 then msg_cancelled cancelId
            else msg_cancel_failed) /\
    disk_of r1 = (if save_succeeds env1 then Some (Json doc) else d) /\
    disk_of r2 = (if save_succeeds env2 then Some (Json doc) else disk_of r1) /\
    (save_succeeds env1 = true -> disk_of r2 = disk_of r1).
Proof.
  intros H0 Ha Hwf Hl Hex r1 r2.
  assert (Hid : cancelId <> "").
  { destruct Hex as [b [Hin <-]].
    apply (ids_well_formed_nonempty d l b Hwf Hl Hin). }
  destruct (first_match_split (fun b => String.eqb (id b) cancelId) l)
    as (pre & b & post & -> & Hpre & Hb).
  { destruct Hex as [b [Hin Hb]]. exists b. split; [exact Hin|].
    apply String.eqb_eq. exact Hb. }
  apply String.eqb_eq in Hb.
  assert (Hpre' : forall y, In y pre -> id y <> cancelId).
  { intros y Hy. apply String.eqb_neq. apply Hpre. exact Hy. }
  exists pre, b, post.
  do 4 (split; [assumption || reflexivity|]).
  cbv zeta.
  pose proof (run_cancel_found env1 a0 cancelId rest d pre b post
                H0 Ha Hid Hl Hpre' Hb) as Hr1.
  fold r1 in Hr1. cbv zeta in Hr1.
  assert (Hd1 : disk_of r1 =
                if save_succeeds env1
                then Some (Json {| bookings :=
                       Some (pre ++ set_status "cancelled" b :: post)%list |})
                else d).
  { rewrite Hr1. unfold save_succeeds.
    destruct (mkdir_ok env1), (write_ok env1); reflexivity. }
  assert (Hr2 : r2 =
    if mkdir_ok env2 then
      if write_ok env2 then
        (Ok (msg_cancelled cancelId),
         {| disk := Some (Json {| bookings :=
                      Some (pre ++ set_status "cancelled" b :: post)%list |});
            trace := [LoadCalled;
                      SaveCalled {| bookings :=
                        Some (pre ++ set_status "cancelled" b :: post)%list |};
                      Mkdir;
                      WriteFile {| bookings :=
                        Some (pre ++ set_status "cancelled" b :: post)%list |}] |})
      else
        (Ok msg_cancel_failed,
         {| disk := disk_of r1;
            trace := [LoadCalled;
                      SaveCalled {| bookings :=
                        Some (pre ++ set_status "cancelled" b :: post)%list |};
                      Mkdir; ConsoleError EIO] |})
    else
      (Ok msg_cancel_failed,
       {| disk := disk_of r1;
          trace := [LoadCalled;
                    SaveCalled {| bookings :=
                      Some (pre ++ set_status "cancelled" b :: post)%list |};
                    ConsoleError EIO] |})).
  { subst r2. rewrite Hd1. destruct (save_succeeds env1).
    - rewrite (run_cancel_found env2 a0 cancelId rest _ pre
                 (set_status "cancelled" b) post); try assumption;
        reflexivity.
    - rewrite (run_cancel_found env2 a0 cancelId rest d pre b post);
        try assumption; reflexivity. }
  split.
  { rewrite Hr1. destruct (mkdir_ok env1), (write_ok env1); reflexivity. }
  split.
  { rewrite Hr2. destruct (mkdir_ok env2), (write_ok env2); reflexivity. }
  split.
  { rewrite Hr1. unfold save_succeeds.
    destruct (mkdir_ok env1), (write_ok env1); reflexivity. }
  split.
  { rewrite Hr2. unfold save_succeeds.
    destruct (mkdir_ok env2), (write_ok env2); reflexivity. }
  split; [exact Hd1|].
  assert (Hd2 : disk_of r2 =
                if save_succeeds env2
                then Some (Json {| bookings :=
                       Some (pre ++ set_status "cancelled" b :: post)%list |})
                else disk_of r1).
  { rewrite Hr2. unfold save_succeeds.
    destruct (mkdir_ok env2), (write_ok env2); reflexivity. }
  split; [exact Hd2|].
  intros Hs1. rewrite Hd2, Hd1, Hs1. destruct (save_succeeds env2); reflexivity.
Qed.

(** ** The router, case by case *)

(** C6, as the handler has it: when the argument list is empty or its
    first token is the empty string, the reply is the help text and the
    store is not accessed.  Otherwise the store is loaded and the handler
    dispatches on the lower-cased first token: two first tokens with the
    same lower-casing give the same run, and a token that lower-cases to
    none of book, view, cancel and status gets the unknown-command reply. *)
Theorem C6_router (env : Env) (args : list string) (d : Disk) :
  ((args = [] \/ exists rest, args = "" :: rest) ->
   RUN env args d = (Ok msg_help, {| disk := d; trace := [] |})) /\
  (forall a0 rest,
     args = a0 :: rest -> a0 <> "" ->
     RUN env args d =
       try_catch (SWITCH env (toLowerCase a0) args (loaded d)) on_error
         {| disk := d; trace := [LoadCalled] |} /\
     (forall a0', a0' <> "" -> toLowerCase a0' = toLowerCase a0 ->
                  RUN env (a0' :: rest) d = RUN env args d) /\
     (toLowerCase a0 <> "book" -> toLowerCase a0 <> "view" ->
      toLowerCase a0 <> "cancel" -> toLowerCase a0 <> "status" ->
      RUN env args d =
        (Ok msg_unknown, {| disk := d; trace := [LoadCalled] |}))).
Proof.
  split.
  - intros H. apply run_help. apply falsy_first_spec. exact H.
  - intros a0 rest -> H0. split; [|split].
    + apply run_dispatch. exact H0.
    + intros a0' H0' Hlow.
      rewrite !run_dispatch by assumption. rewrite Hlow.
      rewrite (switch_action_head env (toLowerCase a0) a0' a0). reflexivity.
    + intros. apply run_unknown; assumption.
Qed.

(** ** case "view" *)

Lemma forEach_view_entries (l : list Booking) :
  forall index response,
    forEach_view l index response = response ++ entries_from index l.
Proof.
  induction l as [|b l IH]; intros index response;
    cbn [forEach_view entries_from].
  - now rewrite string_app_nil_r.
  - rewrite IH. now rewrite string_app_assoc.
Qed.

Lemma entries_from_app (pre post : list Booking) :
  forall index,
    entries_from index (pre ++ post) =
    entries_from index pre ++ entries_from (index + List.length pre) post.
Proof.
  induction pre as [|b pre IH]; intros index;
    cbn [entries_from app List.length].
  - now rewrite Nat.add_0_r.
  - rewrite IH, string_app_assoc, Nat.add_succ_r. reflexivity.
Qed.

(** An entry shows its number and the six members of its record. *)
Lemma view_entry_shows (index : nat) (b : Booking) :
  forall shown,
    In shown [N_toString (N.of_nat (index + 1)); id b; customerName b;
              date b; time b; labType b; status b] ->
    contains shown (view_entry index b).
Proof.
  intros shown Hin. cbn [In] in Hin. unfold view_entry.
  destruct Hin as [<-|[<-|[<-|[<-|[<-|[<-|[<-|[]]]]]]]]; find_occurrence.
Qed.

(** C8: [view] never calls [saveBookings] and leaves the file as it was,
    so it does not create it.  The reply is the no-bookings message exactly
    when the store has no [bookings] member or an empty list.  Otherwise
    the reply is the header followed by one entry per record, in the order
    of the list: the record at position [k], counting from 0, comes after
    the entries of the [k] records before it, carries the number [k + 1]
    and shows its id, customer name, date, time, lab type and status. *)
Theorem C8_view_lists_store
    (env : Env) (a0 : string) (rest : list string) (d : Disk) :
  a0 <> "" -> toLowerCase a0 = "view" ->
  let r := RUN env (a0 :: rest) d in
  disk_of r = d /\
  trace_of r = [LoadCalled] /\
  (reply_of r = Some msg_no_bookings <->
   bookings (loaded d) = None \/ bookings (loaded d) = Some []) /\
  (forall l,
     bookings (loaded d) = Some l -> l <> [] ->
     reply_of r = Some (view_header ++ entries_from 0 l) /\
     forall pre b post,
       l = (pre ++ b :: post)%list ->
       reply_of r =
         Some (view_header ++ entries_from 0 pre ++
               view_entry (List.length pre) b ++
               entries_from (S (List.length pre)) post) /\
       forall shown,
         In shown [N_toString (N.of_nat (List.length pre + 1)); id b;
                   customerName b; date b; time b; labType b; status b] ->
         contains shown (view_entry (List.length pre) b)).
Proof.
  intros H0 Ha r. subst r. rewrite run_view by assumption.
  unfold case_view, try_catch, ret.
  destruct (bookings (loaded d)) as [[|b0 l0]|] eqn:Hl;
    cbn [List.length Nat.eqb reply_of disk_of trace_of fst snd disk trace].
  - split; [reflexivity|]. split; [reflexivity|]. split.
    + split; auto.
    + intros l Hsome Hne. congruence.
  - rewrite forEach_view_entries.
    split; [reflexivity|]. split; [reflexivity|]. split.
    + split.
      * unfold view_header, msg_no_bookings. intros [=].
      * intros [H|H]; discriminate H.
    + intros l Hsome _. injection Hsome as <-.
      split; [reflexivity|].
      intros pre b post Hsplit. split.
      * rewrite Hsplit, entries_from_app.
        cbn [entries_from Nat.add]. reflexivity.
      * apply view_entry_shows.
  - split; [reflexivity|]. split; [reflexivity|]. split.
    + split; auto.
    + intros l Hsome. discriminate Hsome.
Qed.

(** ** First match *)

Lemma find_first {A} (p : A -> bool) (pre : list A) (x : A) (post : list A) :
  (forall y, In y pre -> p y = false) -> p x = true ->
  find p (pre ++ x :: post) = Some x.
Proof.
  induction pre as [|y pre IH]; intros Hpre Hx; simpl.
  - now rewrite Hx.
  - rewrite (Hpre y (or_introl eq_refl)). apply IH; [|exact Hx].
    intros z Hz. apply Hpre. right. exact Hz.
Qed.

(** The status reply shows the seven members of its record, the booking
    time as [toLocaleString] renders it. *)
Lemma msg_status_shows (b : Booking) :
  forall shown,
    In shown [id b; customerName b; date b; time b; labType b; status b;
              toLocaleString (bookingTime b)] ->
    contains shown (msg_status toLocaleString b).
Proof.
  intros shown Hin. cbn [In] in Hin. unfold msg_status.
  destruct Hin as [<-|[<-|[<-|[<-|[<-|[<-|[<-|[]]]]]]]]; find_occurrence.
Qed.

(** C9: on a store with well-formed ids that has records with the given
    id, [l] splits at the first of them, [b]: [cancel] hands to [saveBookings] the list in which
    [b] alone has its status set to "cancelled", the records before and
    after it, later records of the same id included, being as they were,
    and the file holds that list when the save succeeds; [status] replies
    with the rendering of [b], the text under the title "Booking Status"
    that shows the id, customer, date, time, lab type, status and booking
    time of [b], and leaves the file as it was. *)
Theorem C9_first_match
    (env : Env) (a0c a0s theId : string) (rest : list string)
    (d : Disk) (l : list Booking) :
  a0c <> "" -> toLowerCase a0c = "cancel" ->
  a0s <> "" -> toLowerCase a0s = "status" ->
  ids_well_formed d ->
  bookings (loaded d) = Some l ->
  (exists b, In b l /\ id b = theId) ->
  let rc := RUN env (a0c :: theId :: rest) d in
  let rs := RUN env (a0s :: theId :: rest) d in
  exists pre b post,
    l = (pre ++ b :: post)%list /\
    (forall y, In y pre -> id y <> theId) /\
    id b = theId /\
    save_calls (trace_of rc) =
      [ {| bookings := Some (pre ++ set_status "cancelled" b :: post)%list |} ] /\
    disk_of rc =
      (if save_succeeds env
       then Some (Json {| bookings :=
                    Some (pre ++ set_status "cancelled" b :: post)%list |})
       else d) /\
    set_status "cancelled" b =
      {| id := id b; customerName := customerName b; date := date b;
         time := time b; labType := labType b; status := "cancelled";
         bookingTime := bookingTime b |} /\
    reply_of rs = Some (msg_status toLocaleString b) /\
    disk_of rs = d /\
    trace_of rs = [LoadCalled] /\
    reply_of rs =
      Some ("*🔍 Booking Status*" ++ nl ++ nl ++
            "*Booking ID:* " ++ id b ++ nl ++
            "*Customer:* " ++ customerName b ++ nl ++
            "*Date:* " ++ date b ++ nl ++
            "*Time:* " ++ time b ++ nl ++
            "*Lab Type:* " ++ labType b ++ nl ++
            "*Status:* " ++ status b ++ nl ++
            "*Booked on:* " ++ toLocaleString (bookingTime b)) /\
    (forall shown,
       In shown [id b; customerName b; date b; time b; labType b; status b;
                 toLocaleString (bookingTime b)] ->
       exists text, reply_of rs = Some text /\ contains shown text).
Proof.
  intros H0c Hac H0s Has Hwf Hl Hex rc rs.
  assert (Hid : theId <> "").
  { destruct Hex as [b [Hin <-]].
    apply (ids_well_formed_nonempty d l b Hwf Hl Hin). }
  destruct (first_match_split (fun b => String.eqb (id b) theId) l)
    as (pre & b & post & -> & Hpre & Hb).
  { destruct Hex as [b [Hin Hb]]. exists b. split; [exact Hin|].
    apply String.eqb_eq. exact Hb. }
  exists pre, b, post.
  assert (Hb' : id b = theId) by (apply String.eqb_eq; exact Hb).
  assert (Hpre' : forall y, In y pre -> id y <> theId).
  { intros y Hy. apply String.eqb_neq. apply Hpre. exact Hy. }
  split; [reflexivity|]. split; [exact Hpre'|]. split; [exact Hb'|].
  subst rc rs.
  rewrite (run_cancel_found env a0c theId rest d pre b post) by assumption.
  rewrite run_status by assumption.
  unfold case_status. cbn [nth_error falsy arg nth].
  apply String.eqb_neq in Hid. rewrite Hid.
  unfold bookings_of. rewrite Hl.
  unfold try_catch, bind, ret. rewrite find_first by assumption.
  assert (Hshows :
    forall shown,
      In shown [id b; customerName b; date b; time b; labType b; status b;
                toLocaleString (bookingTime b)] ->
      exists text,
        Some (msg_status toLocaleString b) = Some text /\
        contains shown text).
  { intros shown Hin. eexists. split; [reflexivity|].
    apply msg_status_shows. exact Hin. }
  unfold save_succeeds.
  destruct (mkdir_ok env), (write_ok env); repeat split; exact Hshows.
Qed.

(** ** Which invocations reach [saveBookings] *)

(** An invocation either leaves the file alone, without calling
    [saveBookings], or it is a [book] that passed its three checks, or a
    [cancel] whose id is the id of a record of the store. *)
Lemma run_quiet_or_writer (env : Env) (args : list string) (d : Disk) :
  let r := RUN env args d in
  (save_calls (trace_of r) = [] /\ file_writes (trace_of r) = [] /\
   disk_of r = d) \/
  (exists a0 rest,
     args = a0 :: rest /\ a0 <> "" /\
     ((toLowerCase a0 = "book" /\ (5 <= List.length args)%nat /\
       test date_regex (arg 2 args) = true /\
       test time_regex (arg 3 args) = true) \/
      (toLowerCase a0 = "cancel" /\
       exists l b, bookings (loaded d) = Some l /\ In b l /\
                   id b = arg 1 args /\ arg 1 args <> ""))).
Proof.
  intros r. subst r.
  destruct args as [|a0 rest].
  { left. rewrite run_help by reflexivity. repeat split. }
  destruct (String.eqb_spec a0 "") as [->|H0].
  { left. rewrite run_help by reflexivity. repeat split. }
  destruct (String.eqb_spec (toLowerCase a0) "book") as [Hb|Hb].
  { (* book *)
    destruct rest as [|name [|dateArg [|timeArg [|labArg rest]]]];
      try solve [left; rewrite run_book by assumption; repeat split].
    destruct (run_book_cases env a0 name dateArg timeArg labArg rest d H0 Hb)
      as [[_ Hr]|[(_ & _ & Hr)|(Hd & Ht & Hrest)]];
      try solve [left; rewrite Hr; repeat split].
    destruct Hrest as [[_ Hr]|_]; [left; rewrite Hr; repeat split|].
    right. exists a0, (name :: dateArg :: timeArg :: labArg :: rest).
    split; [reflexivity|]. split; [exact H0|]. left.
    cbn [arg nth List.length]. repeat split; try assumption. lia. }
  destruct (String.eqb_spec (toLowerCase a0) "view") as [Hv|Hv].
  { left. rewrite run_view by assumption.
    unfold case_view, try_catch, ret.
    destruct (bookings (loaded d)) as [[|b0 l0]|]; repeat split. }
  destruct (String.eqb_spec (toLowerCase a0) "cancel") as [Hc|Hc].
  { (* cancel *)
    destruct rest as [|cancelId rest].
    { left. rewrite run_cancel by assumption. repeat split. }
    destruct (String.eqb_spec cancelId "") as [->|Hid].
    { left. rewrite run_cancel by assumption. repeat split. }
    destruct (bookings (loaded d)) as [l|] eqn:Hl.
    2:{ left. rewrite run_cancel by assumption.
        unfold case_cancel. cbn [nth_error falsy arg nth].
        apply String.eqb_neq in Hid. rewrite Hid.
        unfold bookings_of. rewrite Hl. repeat split. }
    destruct (existsb (fun b => String.eqb (id b) cancelId) l) eqn:Hex.
    - right. apply existsb_exists in Hex. destruct Hex as [b [Hin Hb']].
      exists a0, (cancelId :: rest).
      split; [reflexivity|]. split; [exact H0|]. right.
      split; [exact Hc|]. exists l, b. cbn [arg nth].
      apply String.eqb_eq in Hb'. repeat split; assumption.
    - left.
      assert (Hnone : forall b, In b l -> id b <> cancelId).
      { intros b Hin Hb'.
        assert (existsb (fun b => String.eqb (id b) cancelId) l = true).
        { apply existsb_exists. exists b. split; [exact Hin|].
          apply String.eqb_eq. exact Hb'. }
        congruence. }
      rewrite (run_cancel_not_found env a0 cancelId rest d l)
        by assumption.
      repeat split. }
  destruct (String.eqb_spec (toLowerCase a0) "status") as [Hs|Hs].
  { left. rewrite run_status by assumption.
    unfold case_status.
    destruct (falsy (nth_error (a0 :: rest) 1)); [repeat split|].
    unfold bookings_of, try_catch, bind, ret.
    destruct (bookings (loaded d)) as [l|]; [|repeat split].
    destruct (find _ l); repeat split. }
  left. rewrite run_unknown by assumption. repeat split.
Qed.

(** C10: an invocation whose first token lower-cases to "view", to
    "status" or to anything other than "book" and "cancel" never calls
    [saveBookings], writes nothing and leaves the file as it was.  An
    invocation that calls [saveBookings], writes the file or changes it is
    either a [book] with at least four arguments after the action whose
    date and time match their patterns, or a [cancel] whose id is the id
    of a record of the store. *)
Theorem C10_only_book_and_cancel_save
    (env : Env) (args : list string) (d : Disk) :
  let r := RUN env args d in
  (forall a0 rest,
     args = a0 :: rest ->
     (toLowerCase a0 = "view" \/ toLowerCase a0 = "status" \/
      (toLowerCase a0 <> "book" /\ toLowerCase a0 <> "cancel")) ->
     save_calls (trace_of r) = [] /\ file_writes (trace_of r) = [] /\
     disk_of r = d) /\
  (save_calls (trace_of r) <> [] \/ file_writes (trace_of r) <> [] \/
   disk_of r <> d ->
   exists a0 rest,
     args = a0 :: rest /\ a0 <> "" /\
     ((toLowerCase a0 = "book" /\ (5 <= List.length args)%nat /\
       test date_regex (arg 2 args) = true /\
       test time_regex (arg 3 args) = true) \/
      (toLowerCase a0 = "cancel" /\
       exists l b, bookings (loaded d) = Some l /\ In b l /\
                   id b = arg 1 args /\ arg 1 args <> ""))).
Proof.
  intros r. pose proof (run_quiet_or_writer env args d) as H.
  fold r in H. cbv zeta in H.
  split.
  - intros a0 rest Hargs Hact.
    destruct H as [Hq|(a0' & rest' & Hargs' & _ & Hw)]; [exact Hq|].
    exfalso. rewrite Hargs in Hargs'. injection Hargs' as <- <-.
    destruct Hw as [(Hb & _)|(Hc & _)];
      destruct Hact as [Hv|[Hs|[Nb Nc]]]; try congruence;
      rewrite Hv in * || rewrite Hs in *; discriminate.
  - intros Hloud.
    destruct H as [(Hs & Hw & Hd)|Hw]; [|exact Hw].
    exfalso. destruct Hloud as [N|[N|N]]; contradiction.
Qed.

(** ** The ids of the store *)

(** The file after an invocation: as it was, or with one record appended,
    or with the status of one record set. *)
Lemma run_disk_cases (env : Env) (args : list string) (d : Disk) :
  let r := RUN env args d in
  disk_of r = d \/
  (exists l newBooking,
     bookings (loaded d) = Some l /\ id newBooking = new_id env /\
     disk_of r = Some (Json {| bookings := Some (l ++ [newBooking])%list |})) \/
  (exists pre b post,
     bookings (loaded d) = Some (pre ++ b :: post)%list /\
     disk_of r =
       Some (Json {| bookings :=
                       Some (pre ++ set_status "cancelled" b :: post)%list |})).
Proof.
  intros r.
  destruct (run_quiet_or_writer env args d)
    as [(_ & _ & Hd)|(a0 & rest & -> & H0 & Hw)]; [left; exact Hd|].
  destruct Hw as [(Hb & Hlen & Hdate & Htime)|(Hc & l & b & Hl & Hin & Hb & Hid)].
  - destruct rest as [|name [|dateArg [|timeArg [|labArg rest]]]];
      cbn [List.length] in Hlen; try lia.
    cbn [arg nth] in Hdate, Htime.
    destruct (bookings (loaded d)) as [l|] eqn:Hl.
    + pose proof (run_book_valid env a0 name dateArg timeArg labArg rest d l
                    H0 Hb Hdate Htime Hl) as Hr.
      fold r in Hr. cbv zeta in Hr.
      destruct (mkdir_ok env), (write_ok env); rewrite Hr;
        try (left; reflexivity).
      right. left. do 2 eexists. split; [reflexivity|].
      split; [|reflexivity]. reflexivity.
    + destruct (run_book_cases env a0 name dateArg timeArg labArg rest d H0 Hb)
        as [[_ Hr]|[(_ & _ & Hr)|(_ & _ & Hrest)]];
        try (left; fold r in Hr; rewrite Hr; reflexivity).
      destruct Hrest as [[_ Hr]|[(doc & t & _ & Hr & _)|(doc & _ & Hr)]];
        fold r in Hr; try (left; rewrite Hr; reflexivity).
      exfalso. revert Hr. subst r. rewrite run_book by assumption.
      unfold case_book. cbn [List.length Nat.ltb Nat.leb arg nth].
      rewrite Hdate, Htime. cbn [negb]. unfold bookings_of. rewrite Hl.
      discriminate.
  - destruct rest as [|cancelId rest]; cbn [arg nth] in Hb, Hid;
      [congruence|].
    destruct (first_match_split (fun b => String.eqb (id b) cancelId) l)
      as (pre & b1 & post & -> & Hpre & Hb1).
    { exists b. split; [exact Hin | apply String.eqb_eq; exact Hb]. }
    apply String.eqb_eq in Hb1.
    assert (Hpre' : forall y, In y pre -> id y <> cancelId).
    { intros y Hy. apply String.eqb_neq. apply Hpre. exact Hy. }
    pose proof (run_cancel_found env a0 cancelId rest d pre b1 post
                  H0 Hc Hid Hl Hpre' Hb1) as Hr.
    fold r in Hr. cbv zeta in Hr.
    destruct (mkdir_ok env), (write_ok env); rewrite Hr;
      try (left; reflexivity).
    right. right. exists pre, b1, post. split; [exact Hl | reflexivity].
Qed.

(** The ids of the store stay well formed through every invocation. *)
Lemma ids_well_formed_preserved (env : Env) (args : list string) (d : Disk) :
  ids_well_formed d -> ids_well_formed (disk_of (RUN env args d)).
Proof.
  intros Hwf.
  destruct (run_disk_cases env args d)
    as [->|[(l & nb & Hl & Hid & ->)|(pre & b & post & Hl & ->)]];
    [exact Hwf| |].
  - intros l' b' [= <-] Hin. apply in_app_or in Hin.
    destruct Hin as [Hin|[<-|[]]].
    + apply (Hwf l b' Hl Hin).
    + rewrite Hid. unfold new_id. eexists. reflexivity.
  - intros l' b' [= <-] Hin. apply in_app_or in Hin.
    destruct Hin as [Hin|[<-|Hin]].
    + apply (Hwf _ b' Hl). apply in_or_app. left. exact Hin.
    + cbn [set_status id]. apply (Hwf _ b Hl).
      apply in_or_app. right. left. reflexivity.
    + apply (Hwf _ b' Hl). apply in_or_app. right. right. exact Hin.
Qed.

(** A missing or unparseable file is a well-formed store with a bookings
    list, the empty one, and a store that has a bookings list keeps one. *)
Lemma ids_well_formed_initial :
  ids_well_formed None /\ forall text, ids_well_formed (Some (Garbage text)).
Proof. split; [|intros text]; intros l b [= <-] []. Qed.

Lemma has_bookings_preserved (env : Env) (args : list string) (d : Disk) :
  (exists l, bookings (loaded d) = Some l) ->
  exists l', bookings (loaded (disk_of (RUN env args d))) = Some l'.
Proof.
  intros Hl.
  destruct (run_disk_cases env args d)
    as [->|[(l & nb & _ & _ & ->)|(pre & b & post & _ & ->)]];
    [exact Hl | eexists; reflexivity | eexists; reflexivity].
Qed.

(** * Further properties of the helpers and of the handler *)

(** ** [saveBookings] *)

(** X1: [saveBookings] never throws.  It returns [true] exactly when both
    [fs.mkdir] and [fs.writeFile] succeed; the file then holds the document
    and a following [loadBookings] returns it.  Otherwise it returns
    [false] and logs the error once.  When the directory cannot be made,
    [fs.writeFile] is not called and the file is left as it was. *)
Theorem X1_saveBookings_contract
    (env : Env) (bookingsData : Document) (s : State) :
  let r := saveBookings env bookingsData s in
  fst r = Ok (save_succeeds env) /\
  save_calls (trace (snd r)) = (save_calls (trace s) ++ [bookingsData])%list /\
  error_logs (trace (snd r)) =
    (error_logs (trace s) ++ (if save_succeeds env then [] else [EIO]))%list /\
  (save_succeeds env = true ->
   disk (snd r) = Some (Json bookingsData) /\
   file_writes (trace (snd r)) =
     (file_writes (trace s) ++ [bookingsData])%list /\
   fst (loadBookings (snd r)) = Ok bookingsData) /\
  (mkdir_ok env = false ->
   disk (snd r) = disk s /\
   file_writes (trace (snd r)) = file_writes (trace s) /\
   fst (loadBookings (snd r)) = Ok (loaded (disk s))).
Proof.
  intros r. subst r. rewrite loadBookings_run, saveBookings_run.
  unfold save_succeeds, save_calls, file_writes, error_logs.
  destruct (mkdir_ok env), (write_ok env);
    cbn [fst snd disk trace andb loaded];
    rewrite !flat_map_app; cbn [flat_map app];
    rewrite ?app_nil_r; repeat split; intros; try discriminate;
    repeat split.
Qed.

(** ** What every invocation does *)

Lemma try_catch_on_error_replies (m : M string) (s : State) :
  exists text, fst (try_catch m on_error s) = Ok text.
Proof.
  unfold try_catch. destruct (m s) as [[text|e] s'].
  - exists text. reflexivity.
  - exists msg_error. reflexivity.
Qed.

(** X2: the handler never throws: whatever the arguments, the clock, the
    outcome of the file-system calls and the content of the file, the
    invocation ends with a reply given to [repondre]. *)
Theorem X2_lab_always_replies (env : Env) (args : list string) (d : Disk) :
  exists text,
    fst (RUN env args d) = Ok text /\ reply_of (RUN env args d) = Some text.
Proof.
  destruct args as [|a0 rest].
  { exists msg_help. rewrite run_help by reflexivity. split; reflexivity. }
  destruct (String.eqb_spec a0 "") as [->|H0].
  { exists msg_help. rewrite run_help by reflexivity. split; reflexivity. }
  rewrite run_dispatch by exact H0.
  destruct (try_catch_on_error_replies
              (SWITCH env (toLowerCase a0) (a0 :: rest) (loaded d))
              {| disk := d; trace := [LoadCalled] |}) as [text Htext].
  exists text. split; [exact Htext|]. unfold reply_of. rewrite Htext.
  reflexivity.
Qed.

(** What a [cancel] invocation does, by cases on the id, on the store and
    on the outcome of the save. *)
Lemma run_cancel_cases
    (env : Env) (a0 : string) (rest : list string) (d : Disk) :
  a0 <> "" -> toLowerCase a0 = "cancel" ->
  let r := RUN env (a0 :: rest) d in
  (falsy (nth_error rest 0) = true /\
   r = (Ok msg_cancel_no_id, {| disk := d; trace := [LoadCalled] |})) \/
  (exists cancelId rest',
     rest = cancelId :: rest' /\ cancelId <> "" /\
     ((bookings (loaded d) = None /\
       r = (Ok msg_error,
            {| disk := d; trace := [LoadCalled; ConsoleError TypeError] |})) \/
      (exists l,
         bookings (loaded d) = Some l /\
         (forall b, In b l -> id b <> cancelId) /\
         r = (Ok (msg_not_found cancelId),
              {| disk := d; trace := [LoadCalled] |})) \/
      (exists pre b post,
         bookings (loaded d) = Some (pre ++ b :: post)%list /\
         (forall y, In y pre -> id y <> cancelId) /\ id b = cancelId /\
         let doc :=
           {| bookings :=
                Some (pre ++ set_status "cancelled" b :: post)%list |} in
         r = if mkdir_ok env then
               if write_ok env then
                 (Ok (msg_cancelled cancelId),
                  {| disk := Some (Json doc);
                     trace := [LoadCalled; SaveCalled doc; Mkdir;
                               WriteFile doc] |})
               else
                 (Ok msg_cancel_failed,
                  {| disk := d;
                     trace := [LoadCalled; SaveCalled doc; Mkdir;
                               ConsoleError EIO] |})
             else
               (Ok msg_cancel_failed,
                {| disk := d;
                   trace := [LoadCalled; SaveCalled doc;
                             ConsoleError EIO] |})))).
Proof.
  intros H0 Hc r. subst r.
  destruct rest as [|cancelId rest].
  { left. split; [reflexivity|]. rewrite run_cancel by assumption.
    reflexivity. }
  destruct (String.eqb_spec cancelId "") as [->|Hid].
  { left. split; [reflexivity|]. rewrite run_cancel by assumption.
    reflexivity. }
  right. exists cancelId, rest. split; [reflexivity|]. split; [exact Hid|].
  destruct (bookings (loaded d)) as [l|] eqn:Hl.
  2:{ left. split; [reflexivity|]. rewrite run_cancel by assumption.
      unfold case_cancel. cbn [nth_error falsy arg nth].
      apply String.eqb_neq in Hid. rewrite Hid.
      unfold bookings_of. rewrite Hl. reflexivity. }
  right.
  destruct (existsb (fun b => String.eqb (id b) cancelId) l) eqn:Hex.
  - right. apply existsb_exists in Hex.
    destruct (first_match_split (fun b => String.eqb (id b) cancelId) l Hex)
      as (pre & b & post & -> & Hpre & Hb).
    apply String.eqb_eq in Hb.
    assert (Hpre' : forall y, In y pre -> id y <> cancelId).
    { intros y Hy. apply String.eqb_neq. apply Hpre. exact Hy. }
    exists pre, b, post. split; [reflexivity|].
    split; [exact Hpre'|]. split; [exact Hb|].
    apply run_cancel_found; assumption.
  - left. exists l. split; [reflexivity|].
    assert (Hnone : forall b, In b l -> id b <> cancelId).
    { intros b Hin Hb.
      assert (existsb (fun b => String.eqb (id b) cancelId) l = true).
      { apply existsb_exists. exists b. split; [exact Hin|].
        apply String.eqb_eq. exact Hb. }
      congruence. }
    split; [exact Hnone|].
    apply (run_cancel_not_found env a0 cancelId rest d l); assumption.
Qed.

(** What a [status] invocation does, by cases on the id and on the
    store. *)
Lemma run_status_cases
    (env : Env) (a0 : string) (rest : list string) (d : Disk) :
  a0 <> "" -> toLowerCase a0 = "status" ->
  let r := RUN env (a0 :: rest) d in
  (falsy (nth_error rest 0) = true /\
   r = (Ok msg_status_no_id, {| disk := d; trace := [LoadCalled] |})) \/
  (exists statusId rest',
     rest = statusId :: rest' /\ statusId <> "" /\
     ((bookings (loaded d) = None /\
       r = (Ok msg_error,
            {| disk := d; trace := [LoadCalled; ConsoleError TypeError] |})) \/
      (exists l,
         bookings (loaded d) = Some l /\
         (forall b, In b l -> id b <> statusId) /\
         r = (Ok (msg_not_found statusId),
              {| disk := d; trace := [LoadCalled] |})) \/
      (exists pre b post,
         bookings (loaded d) = Some (pre ++ b :: post)%list /\
         (forall y, In y pre -> id y <> statusId) /\ id b = statusId /\
         r = (Ok (msg_status toLocaleString b),
              {| disk := d; trace := [LoadCalled] |})))).
Proof.
  intros H0 Hs r. subst r. rewrite run_status by assumption.
  destruct rest as [|statusId rest].
  { left. split; reflexivity. }
  destruct (String.eqb_spec statusId "") as [->|Hid].
  { left. split; reflexivity. }
  right. exists statusId, rest. split; [reflexivity|]. split; [exact Hid|].
  unfold case_status. cbn [nth_error falsy arg nth].
  apply String.eqb_neq in Hid. rewrite Hid. apply String.eqb_neq in Hid.
  unfold bookings_of, try_catch, bind, ret.
  destruct (bookings (loaded d)) as [l|] eqn:Hl;
    [|left; split; reflexivity].
  right.
  destruct (existsb (fun b => String.eqb (id b) statusId) l) eqn:Hex.
  - right. apply existsb_exists in Hex.
    destruct (first_match_split (fun b => String.eqb (id b) statusId) l Hex)
      as (pre & b & post & -> & Hpre & Hb).
    exists pre, b, post. split; [reflexivity|].
    split.
    { intros y Hy. apply String.eqb_neq. apply Hpre. exact Hy. }
    split; [apply String.eqb_eq; exact Hb|].
    rewrite find_first by assumption. reflexivity.
  - left. exists l. split; [reflexivity|].
    assert (Hnone : forall b, In b l -> id b <> statusId).
    { intros b Hin Hb.
      assert (existsb (fun b => String.eqb (id b) statusId) l = true).
      { apply existsb_exists. exists b. split; [exact Hin|].
        apply String.eqb_eq. exact Hb. }
      congruence. }
    split; [exact Hnone|].
    assert (Hfind : find (fun b => String.eqb (id b) statusId) l = None).
    { destruct (find (fun b => String.eqb (id b) statusId) l) as [b|] eqn:Hf;
        [|reflexivity].
      apply find_some in Hf. destruct Hf as [Hin Hb].
      apply String.eqb_eq in Hb. exfalso. exact (Hnone b Hin Hb). }
    rewrite Hfind. reflexivity.
Qed.

(** What a [book] invocation does, by cases on the number of arguments,
    on the two format checks, on the store and on the outcome of the
    save. *)
Lemma run_book_all_cases
    (env : Env) (a0 : string) (rest : list string) (d : Disk) :
  a0 <> "" -> toLowerCase a0 = "book" ->
  let r := RUN env (a0 :: rest) d in
  ((List.length (a0 :: rest) < 5)%nat /\
   r = (Ok msg_missing, {| disk := d; trace := [LoadCalled] |})) \/
  (exists name dateArg timeArg labArg rest',
     rest = name :: dateArg :: timeArg :: labArg :: rest' /\
     ((test date_regex dateArg = false /\
       r = (Ok msg_bad_date, {| disk := d; trace := [LoadCalled] |})) \/
      (test date_regex dateArg = true /\ test time_regex timeArg = false /\
       r = (Ok msg_bad_time, {| disk := d; trace := [LoadCalled] |})) \/
      (test date_regex dateArg = true /\ test time_regex timeArg = true /\
       ((bookings (loaded d) = None /\
         r = (Ok msg_error,
              {| disk := d;
                 trace := [LoadCalled; ConsoleError TypeError] |})) \/
        (exists l,
           bookings (loaded d) = Some l /\
           let newBooking :=
             {| id := new_id env; customerName := name; date := dateArg;
                time := timeArg; labType := labArg; status := "confirmed";
                bookingTime := iso_now env |} in
           let doc := {| bookings := Some (l ++ [newBooking])%list |} in
           r = if mkdir_ok env then
                 if write_ok env then
                   (Ok (msg_confirmed (new_id env) name dateArg timeArg labArg),
                    {| disk := Some (Json doc);
                       trace := [LoadCalled; SaveCalled doc; Mkdir;
                                 WriteFile doc] |})
                 else
                   (Ok msg_save_failed,
                    {| disk := d;
                       trace := [LoadCalled; SaveCalled doc; Mkdir;
                                 ConsoleError EIO] |})
               else
                 (Ok msg_save_failed,
                  {| disk := d;
                     trace := [LoadCalled; SaveCalled doc;
                               ConsoleError EIO] |})))))).
Proof.
  intros H0 Hb r. subst r.
  destruct rest as [|name [|dateArg [|timeArg [|labArg rest]]]];
    try solve [left; split; [cbn [List.length]; lia|];
               rewrite run_book by assumption; reflexivity].
  right. exists name, dateArg, timeArg, labArg, rest.
  split; [reflexivity|].
  destruct (test date_regex dateArg) eqn:Hdate.
  2:{ left. split; [reflexivity|]. rewrite run_book by assumption.
      unfold case_book. cbn [List.length Nat.ltb Nat.leb arg nth].
      rewrite Hdate. reflexivity. }
  right.
  destruct (test time_regex timeArg) eqn:Htime.
  2:{ left. do 2 (split; [reflexivity|]). rewrite run_book by assumption.
      unfold case_book. cbn [List.length Nat.ltb Nat.leb arg nth].
      rewrite Hdate, Htime. reflexivity. }
  right. do 2 (split; [reflexivity|]).
  destruct (bookings (loaded d)) as [l|] eqn:Hl.
  - right. exists l. split; [reflexivity|].
    apply run_book_valid; assumption.
  - left. split; [reflexivity|]. rewrite run_book by assumption.
    unfold case_book. cbn [List.length Nat.ltb Nat.leb arg nth].
    rewrite Hdate, Htime. cbn [negb]. unfold bookings_of. rewrite Hl.
    reflexivity.
Qed.

Lemma run_view_cases
    (env : Env) (a0 : string) (rest : list string) (d : Disk) :
  a0 <> "" -> toLowerCase a0 = "view" ->
  exists text,
    RUN env (a0 :: rest) d =
      (Ok text, {| disk := d; trace := [LoadCalled] |}) /\
    text <> msg_error.
Proof.
  intros H0 Hv. rewrite run_view by assumption.
  unfold case_view, try_catch, ret.
  destruct (bookings (loaded d)) as [[|b l]|].
  - exists msg_no_bookings. split; [reflexivity | discriminate].
  - eexists. split; [reflexivity|].
    cbn [List.length Nat.eqb]. rewrite forEach_view_entries.
    unfold view_header. discriminate.
  - exists msg_no_bookings. split; [reflexivity | discriminate].
Qed.

(** The five ways an invocation with an action token goes. *)
Lemma action_cases (a0 : string) :
  toLowerCase a0 = "book" \/ toLowerCase a0 = "view" \/
  toLowerCase a0 = "cancel" \/ toLowerCase a0 = "status" \/
  (toLowerCase a0 <> "book" /\ toLowerCase a0 <> "view" /\
   toLowerCase a0 <> "cancel" /\ toLowerCase a0 <> "status").
Proof.
  destruct (String.eqb_spec (toLowerCase a0) "book"); [tauto|].
  destruct (String.eqb_spec (toLowerCase a0) "view"); [tauto|].
  destruct (String.eqb_spec (toLowerCase a0) "cancel"); [tauto|].
  destruct (String.eqb_spec (toLowerCase a0) "status"); tauto.
Qed.

(** X3: an invocation without an action token touches nothing.  Every
    other invocation calls [loadBookings] exactly once, before anything
    else, also when it goes on to reject its arguments or its command;
    it calls [saveBookings] at most once, and writes nothing but the
    document it has handed to [saveBookings]. *)
Theorem X3_one_load_at_most_one_save
    (env : Env) (args : list string) (d : Disk) :
  let t := trace_of (RUN env args d) in
  (falsy (nth_error args 0) = true -> t = []) /\
  (falsy (nth_error args 0) = false ->
   exists t', t = LoadCalled :: t' /\ load_calls t' = O) /\
  (List.length (save_calls t) <= 1)%nat /\
  (file_writes t = [] \/ file_writes t = save_calls t).
Proof.
  intros t. subst t.
  destruct args as [|a0 rest].
  { rewrite run_help by reflexivity. cbn. repeat split; auto. discriminate. }
  destruct (String.eqb_spec a0 "") as [->|H0].
  { rewrite run_help by reflexivity. cbn. repeat split; auto. discriminate. }
  assert (Hf : falsy (nth_error (a0 :: rest) 0) = false).
  { cbn. apply String.eqb_neq. exact H0. }
  rewrite Hf. split; [discriminate|].
  cut (exists t',
         trace_of (RUN env (a0 :: rest) d) = LoadCalled :: t' /\
         load_calls t' = O /\ (List.length (save_calls t') <= 1)%nat /\
         (file_writes t' = [] \/ file_writes t' = save_calls t')).
  { intros (t' & -> & Hl & Hs & Hw). split; [|split].
    - intros _. exists t'. split; [reflexivity | exact Hl].
    - exact Hs.
    - exact Hw. }
  destruct (action_cases a0) as [Hb|[Hv|[Hc|[Hs|(Nb & Nv & Nc & Ns)]]]].
  - destruct (run_book_all_cases env a0 rest d H0 Hb)
      as [[_ Hr]|(name & dateArg & timeArg & labArg & rest' & -> &
                  [[_ Hr]|[(_ & _ & Hr)|(_ & _ & [[_ Hr]|(l & _ & Hr)])]])];
      cbv zeta in Hr; rewrite Hr;
      try (destruct (mkdir_ok env), (write_ok env));
      eexists; (split; [reflexivity|]); cbn; auto.
  - destruct (run_view_cases env a0 rest d H0 Hv) as (text & Hr & _).
    rewrite Hr. eexists; (split; [reflexivity|]); cbn; auto.
  - destruct (run_cancel_cases env a0 rest d H0 Hc)
      as [[_ Hr]|(cancelId & rest' & -> & _ &
                  [[_ Hr]|[(l & _ & _ & Hr)|(pre & b & post & _ & _ & _ & Hr)]])];
      cbv zeta in Hr; rewrite Hr;
      try (destruct (mkdir_ok env), (write_ok env));
      eexists; (split; [reflexivity|]); cbn; auto.
  - destruct (run_status_cases env a0 rest d H0 Hs)
      as [[_ Hr]|(statusId & rest' & -> & _ &
                  [[_ Hr]|[(l & _ & _ & Hr)|(pre & b & post & _ & _ & _ & Hr)]])];
      cbv zeta in Hr; rewrite Hr;
      eexists; (split; [reflexivity|]); cbn; auto.
  - rewrite run_unknown by assumption.
    eexists; (split; [reflexivity|]); cbn; auto.
Qed.

Lemma msg_error_distinct (i n da ti la : string) (b : Booking) :
  msg_help <> msg_error /\ msg_missing <> msg_error /\
  msg_bad_date <> msg_error /\ msg_bad_time <> msg_error /\
  msg_save_failed <> msg_error /\ msg_cancel_no_id <> msg_error /\
  msg_cancel_failed <> msg_error /\ msg_status_no_id <> msg_error /\
  msg_unknown <> msg_error /\ msg_not_found i <> msg_error /\
  msg_cancelled i <> msg_error /\ msg_confirmed i n da ti la <> msg_error /\
  msg_status toLocaleString b <> msg_error.
Proof. repeat split; discriminate. Qed.

(** An invocation either gives the generic error reply, on a document
    without a [bookings] member whose list the action goes on to use, or
    gives another reply. *)
Lemma error_reply_cases (env : Env) (args : list string) (d : Disk) :
  let r := RUN env args d in
  (reply_of r = Some msg_error /\
   trace_of r = [LoadCalled; ConsoleError TypeError] /\ disk_of r = d /\
   exists a0 rest,
     args = a0 :: rest /\ a0 <> "" /\ bookings (loaded d) = None /\
     ((toLowerCase a0 = "book" /\ (5 <= List.length args)%nat /\
       test date_regex (arg 2 args) = true /\
       test time_regex (arg 3 args) = true) \/
      (toLowerCase a0 = "cancel" /\ falsy (nth_error args 1) = false) \/
      (toLowerCase a0 = "status" /\ falsy (nth_error args 1) = false))) \/
  (reply_of r <> Some msg_error /\
   ~ exists a0 rest,
     args = a0 :: rest /\ a0 <> "" /\ bookings (loaded d) = None /\
     ((toLowerCase a0 = "book" /\ (5 <= List.length args)%nat /\
       test date_regex (arg 2 args) = true /\
       test time_regex (arg 3 args) = true) \/
      (toLowerCase a0 = "cancel" /\ falsy (nth_error args 1) = false) \/
      (toLowerCase a0 = "status" /\ falsy (nth_error args 1) = false))).
Proof.
  intros r.
  assert (Hdistinct : forall i n da ti la b text,
            In text [msg_help; msg_missing; msg_bad_date; msg_bad_time;
                     msg_save_failed; msg_cancel_no_id; msg_cancel_failed;
                     msg_status_no_id; msg_unknown; msg_not_found i;
                     msg_cancelled i; msg_confirmed i n da ti la;
                     msg_status toLocaleString b] ->
            Some text <> Some msg_error).
  { intros i n da ti la b text Hin [= ->].
    pose proof (msg_error_distinct i n da ti la b) as Hd. cbn [In] in Hin.
    intuition congruence. }
  subst r.
    destruct args as [|a0 rest].
    { right. rewrite run_help by reflexivity. split; [discriminate|].
      intros (a & rs & Hargs & _). discriminate Hargs. }
    destruct (String.eqb_spec a0 "") as [->|H0].
    { right. rewrite run_help by reflexivity. split; [discriminate|].
      intros (a & rs & [= <- <-] & Ha & _). congruence. }
    destruct (action_cases a0) as [Hb|[Hv|[Hc|[Hs|(Nb & Nv & Nc & Ns)]]]].
    - destruct (run_book_all_cases env a0 rest d H0 Hb)
        as [[Hlen Hr]|(name & dateArg & timeArg & labArg & rest' & -> &
              [[Hdate Hr]|[(Hdate & Htime & Hr)|
                 (Hdate & Htime & [[Hl Hr]|(l & Hl & Hr)])]])];
        cbv zeta in Hr.
      + right. rewrite Hr. split; [discriminate|].
        intros (a & rs & [= <- <-] & _ & _ & [(_ & Hlen' & _)|[(E & _)|(E & _)]]);
          [lia | rewrite Hb in E; discriminate | rewrite Hb in E; discriminate].
      + right. rewrite Hr. split; [discriminate|].
        intros (a & rs & [= <- <-] & _ & _ & [(_ & _ & Hd' & _)|[(E & _)|(E & _)]]);
          [cbn [arg nth] in Hd'; congruence
          | rewrite Hb in E; discriminate | rewrite Hb in E; discriminate].
      + right. rewrite Hr. split; [discriminate|].
        intros (a & rs & [= <- <-] & _ & _ & [(_ & _ & _ & Ht')|[(E & _)|(E & _)]]);
          [cbn [arg nth] in Ht'; congruence
          | rewrite Hb in E; discriminate | rewrite Hb in E; discriminate].
      + left. rewrite Hr. do 3 (split; [reflexivity|]).
        exists a0, (name :: dateArg :: timeArg :: labArg :: rest').
        split; [reflexivity|]. split; [exact H0|]. split; [exact Hl|].
        left. cbn [arg nth List.length]. repeat split; try assumption. lia.
      + right. split.
        * rewrite Hr. destruct (mkdir_ok env), (write_ok env);
            cbn [reply_of fst];
            apply (Hdistinct (new_id env) name dateArg timeArg labArg
                     (sample_booking "" "" "")); cbn [In]; tauto.
        * intros (a & rs & _ & _ & Hnone & _). congruence.
    - right. destruct (run_view_cases env a0 rest d H0 Hv) as (text & Hr & Ht).
      rewrite Hr. split; [cbn; congruence|].
      intros (a & rs & [= <- <-] & _ & _ & [(E & _)|[(E & _)|(E & _)]]);
        rewrite Hv in E; discriminate.
    - destruct (run_cancel_cases env a0 rest d H0 Hc)
        as [[Hf Hr]|(cancelId & rest' & -> & Hid &
              [[Hl Hr]|[(l & Hl & _ & Hr)|(pre & b & post & Hl & _ & _ & Hr)]])];
        cbv zeta in Hr.
      + right. rewrite Hr. split; [discriminate|].
        intros (a & rs & [= <- <-] & _ & _ & [(E & _)|[(_ & Hf')|(E & _)]]);
          [rewrite Hc in E; discriminate
          | change (falsy (nth_error rest 0) = false) in Hf'; congruence
          | rewrite Hc in E; discriminate].
      + left. rewrite Hr. do 3 (split; [reflexivity|]).
        exists a0, (cancelId :: rest').
        split; [reflexivity|]. split; [exact H0|]. split; [exact Hl|].
        right. left. split; [exact Hc|]. cbn.
        apply String.eqb_neq. exact Hid.
      + right. rewrite Hr. split.
        * cbn [reply_of fst].
          apply (Hdistinct cancelId "" "" "" "" (sample_booking "" "" ""));
            cbn [In]; tauto.
        * intros (a & rs & _ & _ & Hnone & _). congruence.
      + right. split.
        * rewrite Hr. destruct (mkdir_ok env), (write_ok env);
            cbn [reply_of fst];
            apply (Hdistinct cancelId "" "" "" "" (sample_booking "" "" ""));
            cbn [In]; tauto.
        * intros (a & rs & _ & _ & Hnone & _). congruence.
    - destruct (run_status_cases env a0 rest d H0 Hs)
        as [[Hf Hr]|(statusId & rest' & -> & Hid &
              [[Hl Hr]|[(l & Hl & _ & Hr)|(pre & b & post & Hl & _ & _ & Hr)]])];
        cbv zeta in Hr.
      + right. rewrite Hr. split; [discriminate|].
        intros (a & rs & [= <- <-] & _ & _ & [(E & _)|[(E & _)|(_ & Hf')]]);
          [rewrite Hs in E; discriminate
          | rewrite Hs in E; discriminate
          | change (falsy (nth_error rest 0) = false) in Hf'; congruence].
      + left. rewrite Hr. do 3 (split; [reflexivity|]).
        exists a0, (statusId :: rest').
        split; [reflexivity|]. split; [exact H0|]. split; [exact Hl|].
        right. right. split; [exact Hs|]. cbn.
        apply String.eqb_neq. exact Hid.
      + right. rewrite Hr. split.
        * cbn [reply_of fst].
          apply (Hdistinct statusId "" "" "" "" (sample_booking "" "" ""));
            cbn [In]; tauto.
        * intros (a & rs & _ & _ & Hnone & _). congruence.
      + right. rewrite Hr. split.
        * cbn [reply_of fst].
          apply (Hdistinct "" "" "" "" "" b); cbn [In]; tauto.
        * intros (a & rs & _ & _ & Hnone & _). congruence.
    - right. rewrite run_unknown by assumption. split; [discriminate|].
      intros (a & rs & [= <- <-] & _ & _ & [(E & _)|[(E & _)|(E & _)]]);
        congruence.
Qed.

(** X4: on a store document the generic error reply depends on the
    [bookings] member alone.  When the document has a list of records,
    no invocation gets the generic error reply.  When it has no
    [bookings] member, the reply is the generic error exactly for the
    actions that go on to use the list, a [book] that has passed its
    three checks and a [cancel] or a [status] that has an id; the
    [TypeError] is then logged once, nothing is saved and the file is left
    as it was. *)
Theorem X4_error_reply_by_document
    (env : Env) (args : list string) (d : Disk) :
  let r := RUN env args d in
  (forall l, bookings (loaded d) = Some l -> reply_of r <> Some msg_error) /\
  (bookings (loaded d) = None ->
   (reply_of r = Some msg_error <->
    exists a0 rest,
      args = a0 :: rest /\ a0 <> "" /\
      ((toLowerCase a0 = "book" /\ (5 <= List.length args)%nat /\
        test date_regex (arg 2 args) = true /\
        test time_regex (arg 3 args) = true) \/
       (toLowerCase a0 = "cancel" /\ falsy (nth_error args 1) = false) \/
       (toLowerCase a0 = "status" /\ falsy (nth_error args 1) = false))) /\
   (reply_of r = Some msg_error ->
    trace_of r = [LoadCalled; ConsoleError TypeError] /\
    save_calls (trace_of r) = [] /\ disk_of r = d)).
Proof.
  intros r. pose proof (error_reply_cases env args d) as Hmain.
  fold r in Hmain. cbv zeta in Hmain.
  split.
  - intros l Hl.
    destruct Hmain as [(_ & _ & _ & a0 & rest & _ & _ & Hnone & _)|[N _]];
      [congruence | exact N].
  - intros Hnone. split; [split|].
    + intros Hr.
      destruct Hmain as [(_ & _ & _ & a0 & rest & Hargs & H0 & _ & Hact)|[N _]];
        [|congruence].
      exists a0, rest. repeat split; assumption.
    + intros (a0 & rest & Hargs & H0 & Hact).
      destruct Hmain as [(Hr & _)|[_ N]]; [exact Hr|].
      exfalso. apply N. exists a0, rest. repeat split; assumption.
    + intros Hr.
      destruct Hmain as [(_ & Ht & Hd & _)|[N _]]; [|congruence].
      rewrite Ht. repeat split. exact Hd.
Qed.

(** ** Rejected invocations *)

(** X5: a [book] with fewer than four arguments after the action is
    answered with the request for all the information, whatever the
    arguments given and whatever the store; nothing is saved and the file
    is left as it was. *)
Theorem X5_book_too_few_arguments
    (env : Env) (a0 : string) (rest : list string) (d : Disk) :
  a0 <> "" -> toLowerCase a0 = "book" -> (List.length rest < 4)%nat ->
  RUN env (a0 :: rest) d =
    (Ok msg_missing, {| disk := d; trace := [LoadCalled] |}).
Proof.
  intros H0 Hb Hlen.
  destruct (run_book_all_cases env a0 rest d H0 Hb)
    as [[_ Hr]|(name & dateArg & timeArg & labArg & rest' & -> & _)];
    [exact Hr|].
  cbn [List.length] in Hlen. lia.
Qed.

(** X6: when a [book] has passed its checks and the save fails, the
    record has been handed to [saveBookings], the reply is the
    failed-to-save message instead of the confirmation, and the error is
    logged once.  When the save fails because the directory cannot be
    made, the file is left as it was and a following [loadBookings] does
    not see the new record. *)
Theorem X6_book_save_failure
    (env : Env) (a0 name dateArg timeArg labArg : string)
    (rest : list string) (d : Disk) (l : list Booking) :
  a0 <> "" -> toLowerCase a0 = "book" ->
  test date_regex dateArg = true ->
  test time_regex timeArg = true ->
  bookings (loaded d) = Some l ->
  save_succeeds env = false ->
  let newBooking :=
    {| id := new_id env; customerName := name; date := dateArg;
       time := timeArg; labType := labArg; status := "confirmed";
       bookingTime := iso_now env |} in
  let r := RUN env (a0 :: name :: dateArg :: timeArg :: labArg :: rest) d in
  reply_of r = Some msg_save_failed /\
  reply_of r <>
    Some (msg_confirmed (new_id env) name dateArg timeArg labArg) /\
  save_calls (trace_of r) =
    [ {| bookings := Some (l ++ [newBooking])%list |} ] /\
  error_logs (trace_of r) = [EIO] /\
  (mkdir_ok env = false ->
   disk_of r = d /\
   file_writes (trace_of r) = [] /\
   fst (loadBookings (snd r)) = Ok (loaded d)).
Proof.
  intros H0 Hb Hdate Htime Hl Hfail newBooking r.
  pose proof (run_book_valid env a0 name dateArg timeArg labArg rest d l
                H0 Hb Hdate Htime Hl) as Hr.
  fold r in Hr. cbv zeta in Hr. fold newBooking in Hr.
  rewrite loadBookings_run, Hr.
  unfold save_succeeds in Hfail.
  destruct (mkdir_ok env), (write_ok env); try discriminate Hfail;
    repeat split; try discriminate; intros Hm; try discriminate Hm;
    repeat split.
Qed.

(** X7: a [cancel] or a [status] without an id, or with an empty one, is
    asked for a booking id.  The id is looked at before the list is, so
    this holds on every document, one without a [bookings] member
    included; nothing is saved and the file is left as it was. *)
Theorem X7_cancel_or_status_without_id
    (env : Env) (a0 : string) (rest : list string) (d : Disk) :
  a0 <> "" -> falsy (nth_error rest 0) = true ->
  (toLowerCase a0 = "cancel" ->
   RUN env (a0 :: rest) d =
     (Ok msg_cancel_no_id, {| disk := d; trace := [LoadCalled] |})) /\
  (toLowerCase a0 = "status" ->
   RUN env (a0 :: rest) d =
     (Ok msg_status_no_id, {| disk := d; trace := [LoadCalled] |})).
Proof.
  intros H0 Hf. split; intros Ha.
  - destruct (run_cancel_cases env a0 rest d H0 Ha)
      as [[_ Hr]|(cancelId & rest' & -> & Hid & _)]; [exact Hr|].
    cbn in Hf. apply String.eqb_eq in Hf. contradiction.
  - destruct (run_status_cases env a0 rest d H0 Ha)
      as [[_ Hr]|(statusId & rest' & -> & Hid & _)]; [exact Hr|].
    cbn in Hf. apply String.eqb_eq in Hf. contradiction.
Qed.

(** X8: [status] with a non-empty id that no record of the store has
    replies that the booking with this id was not found, on the empty
    store of a missing file as on any other; the file is left as it
    was. *)
Theorem X8_status_unknown_id
    (env : Env) (a0 statusId : string) (rest : list string)
    (d : Disk) (l : list Booking) :
  a0 <> "" -> toLowerCase a0 = "status" -> statusId <> "" ->
  bookings (loaded d) = Some l ->
  (forall b, In b l -> id b <> statusId) ->
  RUN env (a0 :: statusId :: rest) d =
    (Ok (msg_not_found statusId), {| disk := d; trace := [LoadCalled] |}).
Proof.
  intros H0 Hs Hid Hl Hnone.
  destruct (run_status_cases env a0 (statusId :: rest) d H0 Hs)
    as [[Hf _]|(sid & rest' & [= <- <-] & _ &
          [[Hl' _]|[(l' & _ & _ & Hr)|(pre & b & post & Hl' & _ & Hb & _)]])].
  - cbn in Hf. apply String.eqb_eq in Hf. contradiction.
  - congruence.
  - exact Hr.
  - exfalso. rewrite Hl in Hl'. injection Hl' as ->.
    apply (Hnone b); [|exact Hb]. apply in_or_app. right. left. reflexivity.
Qed.


(** ** What every invocation keeps *)

Lemma nth_error_update_middle {A} (f : A -> A) (pre : list A) (x : A)
    (post : list A) :
  forall k y,
    nth_error (pre ++ x :: post) k = Some y ->
    (k <> List.length pre /\ nth_error (pre ++ f x :: post) k = Some y) \/
    (k = List.length pre /\ y = x /\
     nth_error (pre ++ f x :: post) k = Some (f x)).
Proof.
  induction pre as [|p pre IH]; intros k y Hk.
  - destruct k as [|k]; cbn in Hk |- *.
    + injection Hk as ->. right. repeat split.
    + left. split; [discriminate | exact Hk].
  - destruct k as [|k]; cbn in Hk |- *.
    + left. split; [discriminate | exact Hk].
    + destruct (IH k y Hk) as [[Hne Hn]|(-> & -> & Hn)].
      * left. split; [lia | exact Hn].
      * right. repeat split. exact Hn.
Qed.

(** The list of the store after an invocation: as it was, or with one
    confirmed record appended, or with one record cancelled. *)
Lemma run_store_cases
    (env : Env) (args : list string) (d : Disk) (l : list Booking) :
  bookings (loaded d) = Some l ->
  let r := RUN env args d in
  disk_of r = d \/
  (exists newBooking,
     id newBooking = new_id env /\ status newBooking = "confirmed" /\
     disk_of r = Some (Json {| bookings := Some (l ++ [newBooking])%list |})) \/
  (exists pre b post,
     l = (pre ++ b :: post)%list /\
     disk_of r =
       Some (Json {| bookings :=
                       Some (pre ++ set_status "cancelled" b :: post)%list |})).
Proof.
  intros Hl r. subst r.
  destruct args as [|a0 rest].
  { left. rewrite run_help by reflexivity. reflexivity. }
  destruct (String.eqb_spec a0 "") as [->|H0].
  { left. rewrite run_help by reflexivity. reflexivity. }
  destruct (action_cases a0) as [Hb|[Hv|[Hc|[Hs|(Nb & Nv & Nc & Ns)]]]].
  - destruct (run_book_all_cases env a0 rest d H0 Hb)
      as [[_ Hr]|(name & dateArg & timeArg & labArg & rest' & -> &
                  [[_ Hr]|[(_ & _ & Hr)|(_ & _ & [[_ Hr]|(l' & Hl' & Hr)])]])];
      cbv zeta in Hr; rewrite Hr; try (left; reflexivity).
    rewrite Hl in Hl'. injection Hl' as <-.
    destruct (mkdir_ok env), (write_ok env); try (left; reflexivity).
    right. left. eexists. split; [|split; [|reflexivity]]; reflexivity.
  - left. destruct (run_view_cases env a0 rest d H0 Hv) as (text & Hr & _).
    rewrite Hr. reflexivity.
  - destruct (run_cancel_cases env a0 rest d H0 Hc)
      as [[_ Hr]|(cancelId & rest' & -> & _ &
                  [[_ Hr]|[(l' & _ & _ & Hr)|
                     (pre & b & post & Hl' & _ & _ & Hr)]])];
      cbv zeta in Hr; rewrite Hr; try (left; reflexivity).
    rewrite Hl in Hl'. injection Hl' as ->.
    destruct (mkdir_ok env), (write_ok env); try (left; reflexivity).
    right. right. exists pre, b, post. split; reflexivity.
  - left. destruct (run_status_cases env a0 rest d H0 Hs)
      as [[_ Hr]|(statusId & rest' & -> & _ &
                  [[_ Hr]|[(l' & _ & _ & Hr)|(pre & b & post & _ & _ & _ & Hr)]])];
      rewrite Hr; reflexivity.
  - left. rewrite run_unknown by assumption. reflexivity.
Qed.

(** X10: the store invariant, a bookings list whose records have an id
    that starts with "LAB" and the status "confirmed" or "cancelled",
    holds of a missing and of an unparseable file, and every invocation
    keeps it, whatever its arguments and whether its save succeeds. *)
Theorem X10_store_invariant_kept
    (env : Env) (args : list string) (d : Disk) :
  store_invariant None /\
  (forall text, store_invariant (Some (Garbage text))) /\
  (store_invariant d -> store_invariant (disk_of (RUN env args d))).
Proof.
  split; [|split].
  - exists []. split; [reflexivity | intros b []].
  - intros text. exists []. split; [reflexivity | intros b []].
  - intros (l & Hl & Hinv).
    destruct (run_store_cases env args d l Hl)
      as [->|[(nb & Hid & Hst & ->)|(pre & b & post & -> & ->)]].
    + exists l. split; assumption.
    + exists (l ++ [nb])%list. split; [reflexivity|].
      intros b Hin. apply in_app_or in Hin. destruct Hin as [Hin|[<-|[]]].
      * apply Hinv. exact Hin.
      * split; [|left; exact Hst]. rewrite Hid. unfold new_id.
        eexists. reflexivity.
    + exists (pre ++ set_status "cancelled" b :: post)%list.
      split; [reflexivity|].
      intros b' Hin. apply in_app_or in Hin. destruct Hin as [Hin|[<-|Hin]].
      * apply Hinv. apply in_or_app. left. exact Hin.
      * split; [|right; reflexivity]. cbn [set_status id].
        apply (Hinv b). apply in_or_app. right. left. reflexivity.
      * apply Hinv. apply in_or_app. right. right. exact Hin.
Qed.

(** X11: as long as [fs.writeFile] does not fail, no invocation removes,
    moves or rewrites a record.  After an invocation whose write, if it
    comes to one, succeeds, the store has the records it had, at the
    positions they had, with all their members but the status as they
    were, and a status that is as it was or "cancelled"; at most one
    record is added, at the end. *)
Theorem X11_records_are_kept
    (env : Env) (args : list string) (d : Disk) (l : list Booking) :
  mkdir_ok env = false \/ write_ok env = true ->
  bookings (loaded d) = Some l ->
  exists l',
    bookings (loaded (disk_of (RUN env args d))) = Some l' /\
    (List.length l <= List.length l' <= List.length l + 1)%nat /\
    forall k b,
      nth_error l k = Some b ->
      exists b',
        nth_error l' k = Some b' /\
        erase_status b' = erase_status b /\
        (status b' = status b \/ status b' = "cancelled").
Proof.
  intros _ Hl.
  destruct (run_store_cases env args d l Hl)
    as [->|[(nb & _ & _ & ->)|(pre & b0 & post & -> & ->)]].
  - exists l. split; [exact Hl|]. split; [lia|].
    intros k b Hk. exists b. repeat split; auto.
  - exists (l ++ [nb])%list. split; [reflexivity|].
    split; [rewrite length_app; cbn; lia|].
    intros k b Hk. exists b. split; [|split; auto].
    rewrite nth_error_app1; [exact Hk|].
    apply nth_error_Some. congruence.
  - exists (pre ++ set_status "cancelled" b0 :: post)%list.
    split; [reflexivity|].
    split; [rewrite !length_app; cbn; lia|].
    intros k b Hk.
    destruct (nth_error_update_middle (set_status "cancelled") pre b0 post
                k b Hk) as [[_ Hn]|(_ & -> & Hn)].
    + exists b. repeat split; auto.
    + exists (set_status "cancelled" b0). split; [exact Hn|].
      split; [reflexivity | right; reflexivity].
Qed.

(** ** One invocation after another *)

Lemma run_status_found
    (env : Env) (a0 statusId : string) (rest : list string) (d : Disk)
    (pre : list Booking) (b : Booking) (post : list Booking) :
  a0 <> "" -> toLowerCase a0 = "status" -> statusId <> "" ->
  bookings (loaded d) = Some (pre ++ b :: post)%list ->
  (forall y, In y pre -> id y <> statusId) -> id b = statusId ->
  RUN env (a0 :: statusId :: rest) d =
    (Ok (msg_status toLocaleString b), {| disk := d; trace := [LoadCalled] |}).
Proof.
  intros H0 Hs Hid Hl Hpre Hb.
  rewrite run_status by assumption.
  unfold case_status. cbn [nth_error falsy arg nth].
  apply String.eqb_neq in Hid. rewrite Hid.
  unfold bookings_of. rewrite Hl.
  unfold try_catch, bind, ret.
  rewrite find_first; [reflexivity | | apply String.eqb_eq; exact Hb].
  intros y Hy. apply String.eqb_neq. apply Hpre. exact Hy.
Qed.

Lemma new_id_nonempty (env : Env) : new_id env <> "".
Proof. unfold new_id. discriminate. Qed.

(** X12: after a [book] that has saved, a [status] for the id of the
    confirmation shows the new record, with the name, date, time and lab
    type that were booked and the status "confirmed", when no record of
    the store had that id before.  When one had, which happens when two
    bookings are made at times with the same last six digits, [status]
    shows the first of the older records instead, and the new one cannot
    be looked up. *)
Theorem X12_book_then_status
    (env env' : Env) (a0 a0s name dateArg timeArg labArg : string)
    (rest rest' : list string) (d : Disk) (l : list Booking) :
  a0 <> "" -> toLowerCase a0 = "book" ->
  a0s <> "" -> toLowerCase a0s = "status" ->
  test date_regex dateArg = true ->
  test time_regex timeArg = true ->
  bookings (loaded d) = Some l ->
  save_succeeds env = true ->
  let r := RUN env (a0 :: name :: dateArg :: timeArg :: labArg :: rest) d in
  let r' := RUN env' (a0s :: new_id env :: rest') (disk_of r) in
  ((forall b, In b l -> id b <> new_id env) ->
   reply_of r' =
     Some ("*🔍 Booking Status*" ++ nl ++ nl ++
           "*Booking ID:* " ++ new_id env ++ nl ++
           "*Customer:* " ++ name ++ nl ++
           "*Date:* " ++ dateArg ++ nl ++
           "*Time:* " ++ timeArg ++ nl ++
           "*Lab Type:* " ++ labArg ++ nl ++
           "*Status:* " ++ "confirmed" ++ nl ++
           "*Booked on:* " ++ toLocaleString (iso_now env)) /\
   forall shown,
     In shown [new_id env; name; dateArg; timeArg; labArg; "confirmed";
               toLocaleString (iso_now env)] ->
     exists text, reply_of r' = Some text /\ contains shown text) /\
  (forall pre b post,
     l = (pre ++ b :: post)%list ->
     (forall y, In y pre -> id y <> new_id env) -> id b = new_id env ->
     reply_of r' =
       Some ("*🔍 Booking Status*" ++ nl ++ nl ++
             "*Booking ID:* " ++ id b ++ nl ++
             "*Customer:* " ++ customerName b ++ nl ++
             "*Date:* " ++ date b ++ nl ++
             "*Time:* " ++ time b ++ nl ++
             "*Lab Type:* " ++ labType b ++ nl ++
             "*Status:* " ++ status b ++ nl ++
             "*Booked on:* " ++ toLocaleString (bookingTime b)) /\
     forall shown,
       In shown [id b; customerName b; date b; time b; labType b; status b;
                 toLocaleString (bookingTime b)] ->
       exists text, reply_of r' = Some text /\ contains shown text).
Proof.
  intros H0 Hb H0s Hs Hdate Htime Hl Hsave r r'.
  set (newBooking :=
         {| id := new_id env; customerName := name; date := dateArg;
            time := timeArg; labType := labArg; status := "confirmed";
            bookingTime := iso_now env |}).
  pose proof (run_book_valid env a0 name dateArg timeArg labArg rest d l
                H0 Hb Hdate Htime Hl) as Hr.
  fold r in Hr. cbv zeta in Hr. fold newBooking in Hr.
  unfold save_succeeds in Hsave. apply andb_prop in Hsave.
  destruct Hsave as [Hm Hw]. rewrite Hm, Hw in Hr.
  assert (Hd : disk_of r =
               Some (Json {| bookings := Some (l ++ [newBooking])%list |})).
  { rewrite Hr. reflexivity. }
  subst r'. rewrite Hd. split.
  - intros Hfresh.
    rewrite (run_status_found env' a0s (new_id env) rest' _ l newBooking []);
      try assumption; try reflexivity; [|apply new_id_nonempty].
    split; [reflexivity|].
    intros shown Hin. eexists. split; [reflexivity|].
    apply (msg_status_shows newBooking). exact Hin.
  - intros pre b post -> Hpre Hidb.
    rewrite (run_status_found env' a0s (new_id env) rest' _ pre b
               (post ++ [newBooking])%list);
      try assumption; try reflexivity.
    + split; [reflexivity|].
      intros shown Hin. eexists. split; [reflexivity|].
      apply msg_status_shows. exact Hin.
    + apply new_id_nonempty.
    + cbn [loaded bookings]. rewrite <- app_assoc. reflexivity.
Qed.

(** X13: after a [book] that has saved, [view] lists the records that the
    store had, in their order, and then the new record, numbered one more
    than the number of records before it. *)
Theorem X13_book_then_view
    (env env' : Env) (a0 a0v name dateArg timeArg labArg : string)
    (rest rest' : list string) (d : Disk) (l : list Booking) :
  a0 <> "" -> toLowerCase a0 = "book" ->
  a0v <> "" -> toLowerCase a0v = "view" ->
  test date_regex dateArg = true ->
  test time_regex timeArg = true ->
  bookings (loaded d) = Some l ->
  save_succeeds env = true ->
  let newBooking :=
    {| id := new_id env; customerName := name; date := dateArg;
       time := timeArg; labType := labArg; status := "confirmed";
       bookingTime := iso_now env |} in
  let r := RUN env (a0 :: name :: dateArg :: timeArg :: labArg :: rest) d in
  reply_of (RUN env' (a0v :: rest') (disk_of r)) =
    Some (view_header ++ entries_from 0 l ++
          view_entry (List.length l) newBooking).
Proof.
  intros H0 Hb H0v Hv Hdate Htime Hl Hsave newBooking r.
  pose proof (run_book_valid env a0 name dateArg timeArg labArg rest d l
                H0 Hb Hdate Htime Hl) as Hr.
  fold r in Hr. cbv zeta in Hr. fold newBooking in Hr.
  unfold save_succeeds in Hsave. apply andb_prop in Hsave.
  destruct Hsave as [Hm Hw]. rewrite Hm, Hw in Hr.
  rewrite Hr. cbn [disk_of snd disk].
  rewrite run_view by assumption.
  unfold case_view, try_catch, ret. cbn [loaded bookings].
  rewrite length_app. cbn [List.length]. rewrite Nat.add_1_r.
  cbn [Nat.eqb reply_of fst].
  rewrite forEach_view_entries, entries_from_app.
  cbn [entries_from Nat.add]. rewrite string_app_nil_r. reflexivity.
Qed.

(** X14: after a [cancel] that has found its record and saved, a [status]
    for the same id shows that record, the first of its id, with the
    status "cancelled" and its id, customer, date, time, lab type and
    booking time as they were. *)
Theorem X14_cancel_then_status
    (env env' : Env) (a0 a0s theId : string) (rest rest' : list string)
    (d : Disk) (pre : list Booking) (b : Booking) (post : list Booking) :
  a0 <> "" -> toLowerCase a0 = "cancel" ->
  a0s <> "" -> toLowerCase a0s = "status" ->
  theId <> "" ->
  bookings (loaded d) = Some (pre ++ b :: post)%list ->
  (forall y, In y pre -> id y <> theId) -> id b = theId ->
  save_succeeds env = true ->
  let r := RUN env (a0 :: theId :: rest) d in
  let r' := RUN env' (a0s :: theId :: rest') (disk_of r) in
  reply_of r' =
    Some ("*🔍 Booking Status*" ++ nl ++ nl ++
          "*Booking ID:* " ++ id b ++ nl ++
          "*Customer:* " ++ customerName b ++ nl ++
          "*Date:* " ++ date b ++ nl ++
          "*Time:* " ++ time b ++ nl ++
          "*Lab Type:* " ++ labType b ++ nl ++
          "*Status:* " ++ "cancelled" ++ nl ++
          "*Booked on:* " ++ toLocaleString (bookingTime b)) /\
  (forall shown,
     In shown [id b; customerName b; date b; time b; labType b; "cancelled";
               toLocaleString (bookingTime b)] ->
     exists text, reply_of r' = Some text /\ contains shown text) /\
  disk_of r' = disk_of r.
Proof.
  intros H0 Hc H0s Hs Hid Hl Hpre Hb Hsave r r'.
  pose proof (run_cancel_found env a0 theId rest d pre b post
                H0 Hc Hid Hl Hpre Hb) as Hr.
  fold r in Hr. cbv zeta in Hr.
  unfold save_succeeds in Hsave. apply andb_prop in Hsave.
  destruct Hsave as [Hm Hw]. rewrite Hm, Hw in Hr.
  subst r'. rewrite Hr. cbn [disk_of snd disk].
  rewrite (run_status_found env' a0s theId rest' _ pre
             (set_status "cancelled" b) post);
    try assumption; try reflexivity.
  split; [reflexivity|]. split; [|reflexivity].
  intros shown Hin. eexists. split; [reflexivity|].
  apply (msg_status_shows (set_status "cancelled" b)). exact Hin.
Qed.

(** ** The id of a new booking *)

Lemma digit_value_inj (c c' : ascii) :
  is_digit c = true -> is_digit c' = true ->
  (N_of_ascii c - 48)%N = (N_of_ascii c' - 48)%N -> c = c'.
Proof.
  unfold is_digit. intros Hc Hc' Hv.
  apply andb_prop in Hc, Hc'. destruct Hc as [Hlo _], Hc' as [Hlo' _].
  apply N.leb_le in Hlo, Hlo'.
  rewrite <- (ascii_N_embedding c), <- (ascii_N_embedding c').
  f_equal. lia.
Qed.

(** Two strings of digits of the same length that denote the same number
    are the same string. *)
Lemma N_of_digits_inj (s : string) :
  forall t,
    all_digits s = true -> all_digits t = true ->
    String.length s = String.length t ->
    N_of_digits s = N_of_digits t -> s = t.
Proof.
  induction s as [|c s IH]; intros [|c' t] Hs Ht Hlen Hv;
    try discriminate Hlen; [reflexivity|].
  cbn [all_digits] in Hs, Ht. apply andb_prop in Hs, Ht.
  destruct Hs as [Hc Hs], Ht as [Hc' Ht].
  cbn [String.length] in Hlen. injection Hlen as Hlen.
  rewrite !N_of_digits_cons, <- Hlen in Hv.
  pose proof (N_of_digits_bound s Hs) as Hbs.
  pose proof (N_of_digits_bound t Ht) as Hbt. rewrite <- Hlen in Hbt.
  set (P := (10 ^ N.of_nat (String.length s))%N) in *.
  assert (Hq : (N_of_ascii c - 48)%N = (N_of_ascii c' - 48)%N).
  { rewrite (N.div_unique ((N_of_ascii c - 48) * P + N_of_digits s) P
               (N_of_ascii c - 48) (N_of_digits s) Hbs) by lia.
    rewrite (N.div_unique ((N_of_ascii c - 48) * P + N_of_digits s) P
               (N_of_ascii c' - 48) (N_of_digits t) Hbt) by lia.
    reflexivity. }
  f_equal.
  - apply digit_value_inj; assumption.
  - apply IH; try assumption. rewrite Hq in Hv. lia.
Qed.

(** X15: two bookings get the same id exactly when the times at which
    they are made have the same last six digits, that is when they are a
    multiple of 1000 seconds apart; the id does not depend on anything
    else. *)
Theorem X15_same_id_iff_same_last_six_digits (env1 env2 : Env) :
  100000 <= now env1 -> 100000 <= now env2 ->
  (new_id env1 = new_id env2 <->
   now env1 mod 1000000 = now env2 mod 1000000).
Proof.
  intros H1 H2.
  destruct (new_id_digits env1 H1) as (s1 & E1 & L1 & D1 & V1).
  destruct (new_id_digits env2 H2) as (s2 & E2 & L2 & D2 & V2).
  assert (Hmod : forall z, 0 <= z ->
            (Z.to_N z mod 1000000)%N = Z.to_N (z mod 1000000)).
  { intros z Hz. rewrite Z2N.inj_mod by lia. reflexivity. }
  rewrite Hmod in V1, V2 by lia.
  rewrite E1, E2. split.
  - intros [= Hs].
    assert (Hv : Z.to_N (now env1 mod 1000000) =
                 Z.to_N (now env2 mod 1000000)) by congruence.
    pose proof (Z.mod_pos_bound (now env1) 1000000 ltac:(lia)).
    pose proof (Z.mod_pos_bound (now env2) 1000000 ltac:(lia)).
    lia.
  - intros Hm. f_equal.
    apply N_of_digits_inj; try assumption; congruence.
Qed.

(** ** The two patterns *)

Ltac invert_piece H :=
  let pre := fresh "pre" in
  let rest := fresh "rest" in
  let Hlen := fresh "Hlen" in
  let Hall := fresh "Hall" in
  let Hrest := fresh "Hrest" in
  inversion H as [|? ? pre rest Hlen Hall Hrest]; subst; clear H;
  cbn [p_min p_max p_atom times] in Hlen, Hall;
  repeat (destruct pre as [|? pre]; cbn [String.length] in Hlen; try lia);
  cbn [all_match atom_matches] in Hall;
  rename Hrest into H.

Ltac split_digits H :=
  repeat match type of H with
         | (_ && _) = true =>
             let H1 := fresh "Hd" in
             apply andb_prop in H; destruct H as [H1 H]
         end.

(** X16: the date pattern accepts exactly the strings of ten characters
    made of four digits, a hyphen, two digits, a hyphen and two digits:
    nothing may come before or after, and no digit may be left out. *)
Theorem X16_date_pattern_shape (s : string) :
  test date_regex s = true <->
  exists y1 y2 y3 y4 m1 m2 d1 d2 : ascii,
    s = String y1 (String y2 (String y3 (String y4 (String "-"
          (String m1 (String m2 (String "-"
             (String d1 (String d2 ""))))))))) /\
    forallb is_digit [y1; y2; y3; y4; m1; m2; d1; d2] = true.
Proof.
  split.
  - intros H. apply test_spec in H. unfold date_regex in H.
    do 5 invert_piece H.
    inversion H; subst; clear H.
    split_digits Hall. split_digits Hall0. split_digits Hall1.
    split_digits Hall2. split_digits Hall3.
    apply Ascii.eqb_eq in Hd3, Hd6. subst.
    do 8 eexists. split; [reflexivity|].
    cbn [forallb]. 
    repeat match goal with Hx : is_digit _ = true |- _ =>
             rewrite Hx; clear Hx end.
    reflexivity.
  - intros (y1 & y2 & y3 & y4 & m1 & m2 & d1 & d2 & -> & Hd).
    cbn [forallb] in Hd. split_digits Hd.
    unfold test, date_regex.
    repeat (cbn; try match goal with Hx : is_digit _ = true |- _ =>
                       rewrite Hx; clear Hx end).
    reflexivity.
Qed.

(** X17: the time pattern accepts exactly the strings made of one or two
    digits, a colon and two digits: the hour may have one digit, the
    minutes must have two, and neither is compared with 24 or 60. *)
Theorem X17_time_pattern_shape (s : string) :
  test time_regex s = true <->
  (exists h m1 m2 : ascii,
     s = String h (String ":" (String m1 (String m2 ""))) /\
     forallb is_digit [h; m1; m2] = true) \/
  (exists h1 h2 m1 m2 : ascii,
     s = String h1 (String h2 (String ":" (String m1 (String m2 "")))) /\
     forallb is_digit [h1; h2; m1; m2] = true).
Proof.
  split.
  - intros H. apply test_spec in H. unfold time_regex in H.
    invert_piece H; do 2 invert_piece H; inversion H; subst; clear H;
      split_digits Hall; split_digits Hall0; split_digits Hall1;
      match goal with Hc : Ascii.eqb _ ":" = true |- _ =>
        apply Ascii.eqb_eq in Hc; subst end;
      [left; do 3 eexists | right; do 4 eexists];
      (split; [reflexivity|]); cbn [forallb];
      repeat match goal with Hx : is_digit _ = true |- _ =>
               rewrite Hx; clear Hx end;
      reflexivity.
  - intros [(h & m1 & m2 & -> & Hd)|(h1 & h2 & m1 & m2 & -> & Hd)];
      cbn [forallb] in Hd; split_digits Hd; unfold test, time_regex.
    + destruct (Ascii.eqb_spec ":" ":") as [_|N]; [|congruence].
      assert (Hcolon : is_digit ":" = false) by reflexivity.
      repeat (cbn; try match goal with Hx : is_digit _ = _ |- _ =>
                         rewrite Hx; clear Hx end).
      reflexivity.
    + repeat (cbn; try match goal with Hx : is_digit _ = true |- _ =>
                         rewrite Hx; clear Hx end).
      apply Bool.orb_true_r.
Qed.

End Router.

(** * Concrete runs

    The theorems above, applied with ASCII lower-casing and an identity
    rendering of the booking time, on small stores. *)

Lemma sample_disk_well_formed : ids_well_formed sample_disk.
Proof.
  intros l b Hl Hin. injection Hl as <-. cbn [sample_list In] in Hin.
  destruct Hin as [<-|[<-|[<-|[]]]]; eexists; reflexivity.
Defined.

Lemma C1_book_appends_record_witness :
  ("BOOK" <> "" /\ toLowerCase_ascii "BOOK" = "book" /\
   test date_regex "2025-05-20" = true /\ test time_regex "14:00" = true /\
   bookings (loaded None) = Some [] /\ 100000 <= now sample_env) /\
  exists newBooking,
    save_calls
      (trace_of
         (run toLowerCase_ascii (fun t => t) sample_env
            ["BOOK"; "Alice"; "2025-05-20"; "14:00"; "chemistry"] None)) =
      [ {| bookings := Some [newBooking] |} ] /\
    customerName newBooking = "Alice" /\
    date newBooking = "2025-05-20" /\
    time newBooking = "14:00" /\
    labType newBooking = "chemistry" /\
    status newBooking = "confirmed" /\
    id newBooking = "LAB600123".
Proof.
  assert (H0 : "BOOK" <> "") by discriminate.
  assert (Ha : toLowerCase_ascii "BOOK" = "book") by reflexivity.
  assert (Hd : test date_regex "2025-05-20" = true) by reflexivity.
  assert (Ht : test time_regex "14:00" = true) by reflexivity.
  assert (Hl : bookings (loaded None) = Some []) by reflexivity.
  assert (Hn : 100000 <= now sample_env) by (cbn; lia).
  split; [repeat split; assumption|].
  destruct (C1_book_appends_record toLowerCase_ascii (fun t => t) sample_env
              "BOOK" "Alice" "2025-05-20" "14:00" "chemistry" [] None []
              H0 Ha Hd Ht Hl Hn)
    as (nb & Hsave & Hname & Hdate & Htime & Hlab & Hstatus & _ & Hid & _).
  exists nb. repeat split; assumption.
Defined.

Lemma C2_cancel_unknown_id_witness :
  ("Cancel" <> "" /\ toLowerCase_ascii "Cancel" = "cancel" /\
   "LAB000000" <> "" /\ bookings (loaded None) = Some []) /\
  reply_of
    (run toLowerCase_ascii (fun t => t) sample_env ["Cancel"; "LAB000000"] None)
  = Some "*Booking with ID LAB000000 not found.*" /\
  disk_of
    (run toLowerCase_ascii (fun t => t) sample_env ["Cancel"; "LAB000000"] None)
  = None.
Proof.
  assert (H0 : "Cancel" <> "") by discriminate.
  assert (Ha : toLowerCase_ascii "Cancel" = "cancel") by reflexivity.
  assert (Hid : "LAB000000" <> "") by discriminate.
  assert (Hl : bookings (loaded None) = Some []) by reflexivity.
  split; [repeat split; assumption|].
  destruct (C2_cancel_unknown_id toLowerCase_ascii (fun t => t) sample_env
              "Cancel" "LAB000000" [] None [] H0 Ha Hid Hl
              (fun b (Hin : In b []) => match Hin with end))
    as (Hreply & _ & Hdisk & _).
  split; assumption.
Defined.

(** The guard [!args[1]] takes an id that is the empty string for a
    missing one: no record of the store has the id [""], yet the reply
    asks for a booking id instead of saying that the booking with this id
    was not found. *)
Lemma C2_counterexample :
  let args := ["cancel"; ""] in
  (forall b, In b sample_list -> id b <> arg 1 args) /\
  bookings (loaded sample_disk) = Some sample_list /\
  reply_of (run toLowerCase_ascii (fun t => t) sample_env args sample_disk) =
    Some msg_cancel_no_id /\
  reply_of (run toLowerCase_ascii (fun t => t) sample_env args sample_disk) <>
    Some (msg_not_found (arg 1 args)).
Proof.
  cbv zeta. split; [|repeat split; discriminate].
  intros b Hin. cbn [sample_list In] in Hin.
  destruct Hin as [<-|[<-|[<-|[]]]]; discriminate.
Qed.

Lemma C3_book_date_check_witness :
  ("book" <> "" /\ toLowerCase_ascii "book" = "book") /\
  reply_of
    (run toLowerCase_ascii (fun t => t) sample_env
       ["book"; "Alice"; "2025-5-1"; "14:00"; "chemistry"] None)
  = Some msg_bad_date.
Proof.
  assert (H0 : "book" <> "") by discriminate.
  assert (Ha : toLowerCase_ascii "book" = "book") by reflexivity.
  split; [split; assumption|].
  apply (C3_book_date_check toLowerCase_ascii (fun t => t) sample_env
           "book" "Alice" "2025-5-1" "14:00" "chemistry" [] None H0 Ha).
  reflexivity.
Defined.

Lemma C4_book_time_check_witness :
  ("book" <> "" /\ toLowerCase_ascii "book" = "book" /\
   test date_regex "2025-05-01" = true) /\
  reply_of
    (run toLowerCase_ascii (fun t => t) sample_env
       ["book"; "Alice"; "2025-05-01"; "9:5"; "chemistry"] None)
  = Some msg_bad_time.
Proof.
  assert (H0 : "book" <> "") by discriminate.
  assert (Ha : toLowerCase_ascii "book" = "book") by reflexivity.
  assert (Hd : test date_regex "2025-05-01" = true) by reflexivity.
  split; [repeat split; assumption|].
  destruct (C4_book_time_check toLowerCase_ascii (fun t => t) sample_env
              "book" "Alice" "2025-05-01" "9:5" "chemistry" [] None H0 Ha)
    as (Hiff & _).
  apply (Hiff Hd). reflexivity.
Defined.

Lemma C5_cancel_twice_witness :
  ("cancel" <> "" /\ toLowerCase_ascii "cancel" = "cancel" /\
   ids_well_formed sample_disk /\
   bookings (loaded sample_disk) = Some sample_list /\
   (exists b, In b sample_list /\ id b = "LAB000002")) /\
  let r1 := run toLowerCase_ascii (fun t => t) sample_env
              ["cancel"; "LAB000002"] sample_disk in
  let r2 := run toLowerCase_ascii (fun t => t) sample_env
              ["cancel"; "LAB000002"] (disk_of r1) in
  reply_of r1 = Some (msg_cancelled "LAB000002") /\
  reply_of r2 = Some (msg_cancelled "LAB000002") /\
  disk_of r2 = disk_of r1.
Proof.
  assert (H0 : "cancel" <> "") by discriminate.
  assert (Ha : toLowerCase_ascii "cancel" = "cancel") by reflexivity.
  assert (Hid : ids_well_formed sample_disk) by exact sample_disk_well_formed.
  assert (Hl : bookings (loaded sample_disk) = Some sample_list)
    by reflexivity.
  assert (Hex : exists b, In b sample_list /\ id b = "LAB000002").
  { exists (sample_booking "LAB000002" "Bob" "confirmed").
    split; [right; left; reflexivity | reflexivity]. }
  split; [repeat split; assumption|].
  destruct (C5_cancel_twice toLowerCase_ascii (fun t => t)
              sample_env sample_env "cancel" "LAB000002" [] sample_disk
              sample_list H0 Ha Hid Hl Hex)
    as (pre & b & post & _ & _ & _ & _ & _ & _ & H1 & H2 & _ & _ & H3).
  cbv zeta. split; [exact H1 | split; [exact H2 | apply H3; reflexivity]].
Defined.

Lemma C6_router_witness :
  (["Hello"] = "Hello" :: [] /\ "Hello" <> "" /\
   toLowerCase_ascii "Hello" <> "book" /\ toLowerCase_ascii "Hello" <> "view" /\
   toLowerCase_ascii "Hello" <> "cancel" /\
   toLowerCase_ascii "Hello" <> "status") /\
  run toLowerCase_ascii (fun t => t) sample_env ["Hello"] sample_disk =
    (Ok msg_unknown, {| disk := sample_disk; trace := [LoadCalled] |}) /\
  run toLowerCase_ascii (fun t => t) sample_env [] sample_disk =
    (Ok msg_help, {| disk := sample_disk; trace := [] |}).
Proof.
  assert (Hargs : ["Hello"] = "Hello" :: []) by reflexivity.
  assert (H0 : "Hello" <> "") by discriminate.
  assert (Nb : toLowerCase_ascii "Hello" <> "book") by discriminate.
  assert (Nv : toLowerCase_ascii "Hello" <> "view") by discriminate.
  assert (Nc : toLowerCase_ascii "Hello" <> "cancel") by discriminate.
  assert (Ns : toLowerCase_ascii "Hello" <> "status") by discriminate.
  split; [repeat split; assumption|].
  split.
  - destruct (C6_router toLowerCase_ascii (fun t => t) sample_env ["Hello"]
                sample_disk) as [_ Hdispatch].
    destruct (Hdispatch "Hello" [] Hargs H0) as (_ & _ & Hunknown).
    exact (Hunknown Nb Nv Nc Ns).
  - destruct (C6_router toLowerCase_ascii (fun t => t) sample_env []
                sample_disk) as [Hhelp _].
    apply Hhelp. left. reflexivity.
Defined.

(** The help guard [!args[0]] also fires on a first token that is the
    empty string.  The argument list [[""]] is not empty and its first
    token lower-cases to none of the four actions, yet the reply is the
    help text, not the unknown-command message, and the store is not
    loaded. *)
Lemma C6_counterexample :
  let args := [""] in
  args <> [] /\
  toLowerCase_ascii (arg 0 args) <> "book" /\
  toLowerCase_ascii (arg 0 args) <> "view" /\
  toLowerCase_ascii (arg 0 args) <> "cancel" /\
  toLowerCase_ascii (arg 0 args) <> "status" /\
  run toLowerCase_ascii (fun t => t) sample_env args sample_disk =
    (Ok msg_help, {| disk := sample_disk; trace := [] |}) /\
  reply_of (run toLowerCase_ascii (fun t => t) sample_env args sample_disk)
    <> Some msg_unknown.
Proof.
  cbv zeta. repeat split; try discriminate.
Qed.

Lemma C8_view_lists_store_witness :
  ("VIEW" <> "" /\ toLowerCase_ascii "VIEW" = "view") /\
  reply_of (run toLowerCase_ascii (fun t => t) sample_env ["VIEW"] sample_disk)
  = Some (view_header ++ entries_from 0 sample_list) /\
  disk_of (run toLowerCase_ascii (fun t => t) sample_env ["VIEW"] None) = None.
Proof.
  assert (H0 : "VIEW" <> "") by discriminate.
  assert (Ha : toLowerCase_ascii "VIEW" = "view") by reflexivity.
  split; [split; assumption|].
  split.
  - destruct (C8_view_lists_store toLowerCase_ascii (fun t => t) sample_env
                "VIEW" [] sample_disk H0 Ha) as (_ & _ & _ & Hrender).
    destruct (Hrender sample_list) as [Hreply _];
      [reflexivity | discriminate | exact Hreply].
  - destruct (C8_view_lists_store toLowerCase_ascii (fun t => t) sample_env
                "VIEW" [] None H0 Ha) as (Hdisk & _).
    exact Hdisk.
Defined.

Lemma C9_first_match_witness :
  ("cancel" <> "" /\ toLowerCase_ascii "cancel" = "cancel" /\
   "status" <> "" /\ toLowerCase_ascii "status" = "status" /\
   ids_well_formed sample_disk /\
   bookings (loaded sample_disk) = Some sample_list /\
   (exists b, In b sample_list /\ id b = "LAB000002")) /\
  (exists pre b post,
     sample_list = (pre ++ b :: post)%list /\
     (forall y, In y pre -> id y <> "LAB000002") /\
     save_calls
       (trace_of (run toLowerCase_ascii (fun t => t) sample_env
                    ["cancel"; "LAB000002"] sample_disk)) =
       [ {| bookings := Some (pre ++ set_status "cancelled" b :: post)%list |} ] /\
     reply_of (run toLowerCase_ascii (fun t => t) sample_env
                 ["status"; "LAB000002"] sample_disk) =
       Some (msg_status (fun t => t) b)) /\
  reply_of (run toLowerCase_ascii (fun t => t) sample_env
              ["status"; "LAB000002"] sample_disk) =
    Some ("*🔍 Booking Status*" ++ nl ++ nl ++
          "*Booking ID:* LAB000002" ++ nl ++
          "*Customer:* Bob" ++ nl ++
          "*Date:* 2025-05-20" ++ nl ++
          "*Time:* 14:00" ++ nl ++
          "*Lab Type:* chemistry" ++ nl ++
          "*Status:* confirmed" ++ nl ++
          "*Booked on:* 2025-05-20T14:00:00.123Z").
Proof.
  assert (H0c : "cancel" <> "") by discriminate.
  assert (Hac : toLowerCase_ascii "cancel" = "cancel") by reflexivity.
  assert (H0s : "status" <> "") by discriminate.
  assert (Has : toLowerCase_ascii "status" = "status") by reflexivity.
  assert (Hid : ids_well_formed sample_disk) by exact sample_disk_well_formed.
  assert (Hl : bookings (loaded sample_disk) = Some sample_list)
    by reflexivity.
  assert (Hex : exists b, In b sample_list /\ id b = "LAB000002").
  { exists (sample_booking "LAB000002" "Bob" "confirmed").
    split; [right; left; reflexivity | reflexivity]. }
  split; [repeat split; assumption|].
  destruct (C9_first_match toLowerCase_ascii (fun t => t) sample_env
              "cancel" "status" "LAB000002" [] sample_disk sample_list
              H0c Hac H0s Has Hid Hl Hex)
    as (pre & b & post & Hsplit & Hpre & Hidb & Hsave & _ & _ & Hreply & _ & _ &
        Htext & _).
  split.
  - exists pre, b, post. repeat split; assumption.
  - rewrite Htext. unfold sample_list in Hsplit.
    destruct pre as [|p1 [|p2 pre]]; cbn [app] in Hsplit.
    + injection Hsplit as <- _. discriminate Hidb.
    + injection Hsplit as _ <- _. reflexivity.
    + injection Hsplit as _ Hp2 _. exfalso.
      apply (Hpre p2); [right; left; reflexivity|].
      rewrite <- Hp2. reflexivity.
Defined.

Lemma C10_only_book_and_cancel_save_witness :
  (["Status"; "LAB000001"] = "Status" :: ["LAB000001"] /\
   toLowerCase_ascii "Status" = "status") /\
  save_calls
    (trace_of (run toLowerCase_ascii (fun t => t) sample_env
                 ["Status"; "LAB000001"] sample_disk)) = [] /\
  disk_of (run toLowerCase_ascii (fun t => t) sample_env
             ["Status"; "LAB000001"] sample_disk) = sample_disk.
Proof.
  assert (Hargs : ["Status"; "LAB000001"] = "Status" :: ["LAB000001"])
    by reflexivity.
  assert (Ha : toLowerCase_ascii "Status" = "status") by reflexivity.
  split; [split; assumption|].
  destruct (C10_only_book_and_cancel_save toLowerCase_ascii (fun t => t)
              sample_env ["Status"; "LAB000001"] sample_disk) as [Hquiet _].
  destruct (Hquiet "Status" ["LAB000001"] Hargs (or_intror (or_introl Ha)))
    as (Hs & _ & Hd).
  split; assumption.
Defined.

(** ** Concrete runs of the further properties *)

Lemma X5_book_too_few_arguments_witness :
  ("book" <> "" /\ toLowerCase_ascii "book" = "book" /\
   (List.length ["John"; "2025-05-20"; "14:00"] < 4)%nat) /\
  run toLowerCase_ascii (fun t => t) sample_env
    ["book"; "John"; "2025-05-20"; "14:00"] sample_disk =
    (Ok msg_missing, {| disk := sample_disk; trace := [LoadCalled] |}).
Proof.
  assert (H0 : "book" <> "") by discriminate.
  assert (Ha : toLowerCase_ascii "book" = "book") by reflexivity.
  assert (Hlen : (List.length ["John"; "2025-05-20"; "14:00"] < 4)%nat)
    by (cbn; lia).
  split; [repeat split; assumption|].
  exact (X5_book_too_few_arguments toLowerCase_ascii (fun t => t) sample_env
           "book" ["John"; "2025-05-20"; "14:00"] sample_disk H0 Ha Hlen).
Defined.

Lemma X6_book_save_failure_witness :
  ("book" <> "" /\ toLowerCase_ascii "book" = "book" /\
   test date_regex "2025-05-20" = true /\ test time_regex "14:00" = true /\
   bookings (loaded sample_disk) = Some sample_list /\
   save_succeeds sample_env_failing = false /\
   save_succeeds sample_env_no_dir = false /\
   mkdir_ok sample_env_no_dir = false) /\
  reply_of (run toLowerCase_ascii (fun t => t) sample_env_failing
              ["book"; "Dan"; "2025-05-20"; "14:00"; "physics"] sample_disk) =
    Some "*⚠️ Failed to save booking. Please try again.*" /\
  reply_of (run toLowerCase_ascii (fun t => t) sample_env_no_dir
              ["book"; "Dan"; "2025-05-20"; "14:00"; "physics"] sample_disk) =
    Some "*⚠️ Failed to save booking. Please try again.*" /\
  disk_of (run toLowerCase_ascii (fun t => t) sample_env_no_dir
             ["book"; "Dan"; "2025-05-20"; "14:00"; "physics"] sample_disk) =
    sample_disk.
Proof.
  assert (H0 : "book" <> "") by discriminate.
  assert (Ha : toLowerCase_ascii "book" = "book") by reflexivity.
  assert (Hd : test date_regex "2025-05-20" = true) by reflexivity.
  assert (Ht : test time_regex "14:00" = true) by reflexivity.
  assert (Hl : bookings (loaded sample_disk) = Some sample_list)
    by reflexivity.
  assert (Hs : save_succeeds sample_env_failing = false) by reflexivity.
  assert (Hs' : save_succeeds sample_env_no_dir = false) by reflexivity.
  assert (Hm : mkdir_ok sample_env_no_dir = false) by reflexivity.
  split; [repeat split; assumption|].
  destruct (X6_book_save_failure toLowerCase_ascii (fun t => t)
              sample_env_failing "book" "Dan" "2025-05-20" "14:00" "physics"
              [] sample_disk sample_list H0 Ha Hd Ht Hl Hs)
    as (Hreply & _).
  destruct (X6_book_save_failure toLowerCase_ascii (fun t => t)
              sample_env_no_dir "book" "Dan" "2025-05-20" "14:00" "physics"
              [] sample_disk sample_list H0 Ha Hd Ht Hl Hs')
    as (Hreply' & _ & _ & _ & Hdir).
  destruct (Hdir Hm) as (Hdisk & _).
  split; [exact Hreply | split; [exact Hreply' | exact Hdisk]].
Defined.

Lemma X7_cancel_or_status_without_id_witness :
  ("cancel" <> "" /\ falsy (nth_error (@nil string) 0) = true /\
   toLowerCase_ascii "cancel" = "cancel") /\
  run toLowerCase_ascii (fun t => t) sample_env ["cancel"]
    (Some (Json {| bookings := None |})) =
    (Ok msg_cancel_no_id,
     {| disk := Some (Json {| bookings := None |}); trace := [LoadCalled] |}).
Proof.
  assert (H0 : "cancel" <> "") by discriminate.
  assert (Hf : falsy (nth_error (@nil string) 0) = true) by reflexivity.
  assert (Ha : toLowerCase_ascii "cancel" = "cancel") by reflexivity.
  split; [repeat split; assumption|].
  destruct (X7_cancel_or_status_without_id toLowerCase_ascii (fun t => t)
              sample_env "cancel" [] (Some (Json {| bookings := None |}))
              H0 Hf) as [Hcancel _].
  exact (Hcancel Ha).
Defined.

Lemma X8_status_unknown_id_witness :
  ("status" <> "" /\ toLowerCase_ascii "status" = "status" /\
   "LAB000000" <> "" /\ bookings (loaded None) = Some []) /\
  run toLowerCase_ascii (fun t => t) sample_env ["status"; "LAB000000"] None =
    (Ok "*Booking with ID LAB000000 not found.*",
     {| disk := None; trace := [LoadCalled] |}).
Proof.
  assert (H0 : "status" <> "") by discriminate.
  assert (Ha : toLowerCase_ascii "status" = "status") by reflexivity.
  assert (Hid : "LAB000000" <> "") by discriminate.
  assert (Hl : bookings (loaded None) = Some []) by reflexivity.
  split; [repeat split; assumption|].
  exact (X8_status_unknown_id toLowerCase_ascii (fun t => t) sample_env
           "status" "LAB000000" [] None [] H0 Ha Hid Hl
           (fun b (Hin : In b []) => match Hin with end)).
Defined.

Lemma X11_records_are_kept_witness :
  ((mkdir_ok sample_env = false \/ write_ok sample_env = true) /\
   bookings (loaded sample_disk) = Some sample_list) /\
  exists l',
    bookings
      (loaded (disk_of (run toLowerCase_ascii (fun t => t) sample_env
                          ["cancel"; "LAB000002"] sample_disk))) = Some l' /\
    (List.length sample_list <= List.length l')%nat /\
    exists b',
      nth_error l' 1 = Some b' /\
      erase_status b' =
        erase_status (sample_booking "LAB000002" "Bob" "confirmed").
Proof.
  assert (Hw : mkdir_ok sample_env = false \/ write_ok sample_env = true)
    by (right; reflexivity).
  assert (Hl : bookings (loaded sample_disk) = Some sample_list)
    by reflexivity.
  split; [split; assumption|].
  destruct (X11_records_are_kept toLowerCase_ascii (fun t => t) sample_env
              ["cancel"; "LAB000002"] sample_disk sample_list Hw Hl)
    as (l' & Hl' & [Hlen _] & Hkept).
  exists l'. split; [exact Hl'|]. split; [exact Hlen|].
  destruct (Hkept 1%nat (sample_booking "LAB000002" "Bob" "confirmed")
              eq_refl) as (b' & Hn & He & _).
  exists b'. split; assumption.
Defined.

Lemma X12_book_then_status_witness :
  ("book" <> "" /\ toLowerCase_ascii "book" = "book" /\
   "status" <> "" /\ toLowerCase_ascii "status" = "status" /\
   test date_regex "2025-05-20" = true /\ test time_regex "14:00" = true /\
   bookings (loaded sample_disk) = Some sample_list /\
   save_succeeds sample_env = true /\
   (forall b, In b sample_list -> id b <> new_id sample_env)) /\
  reply_of
    (run toLowerCase_ascii (fun t => t) sample_env ["status"; "LAB600123"]
       (disk_of
          (run toLowerCase_ascii (fun t => t) sample_env
             ["book"; "Dan"; "2025-05-20"; "14:00"; "physics"] sample_disk))) =
    Some ("*🔍 Booking Status*" ++ nl ++ nl ++
          "*Booking ID:* LAB600123" ++ nl ++
          "*Customer:* Dan" ++ nl ++
          "*Date:* 2025-05-20" ++ nl ++
          "*Time:* 14:00" ++ nl ++
          "*Lab Type:* physics" ++ nl ++
          "*Status:* confirmed" ++ nl ++
          "*Booked on:* 2025-05-20T14:00:00.123Z").
Proof.
  assert (H0 : "book" <> "") by discriminate.
  assert (Ha : toLowerCase_ascii "book" = "book") by reflexivity.
  assert (H0s : "status" <> "") by discriminate.
  assert (Has : toLowerCase_ascii "status" = "status") by reflexivity.
  assert (Hd : test date_regex "2025-05-20" = true) by reflexivity.
  assert (Ht : test time_regex "14:00" = true) by reflexivity.
  assert (Hl : bookings (loaded sample_disk) = Some sample_list)
    by reflexivity.
  assert (Hs : save_succeeds sample_env = true) by reflexivity.
  assert (Hfresh : forall b, In b sample_list -> id b <> new_id sample_env).
  { intros b Hin. cbn [sample_list In] in Hin.
    destruct Hin as [<-|[<-|[<-|[]]]]; discriminate. }
  split; [repeat split; assumption|].
  destruct (X12_book_then_status toLowerCase_ascii (fun t => t)
              sample_env sample_env "book" "status" "Dan" "2025-05-20"
              "14:00" "physics" [] [] sample_disk sample_list
              H0 Ha H0s Has Hd Ht Hl Hs) as [Hnew _].
  destruct (Hnew Hfresh) as [Htext _].
  exact Htext.
Defined.

Lemma X13_book_then_view_witness :
  ("book" <> "" /\ toLowerCase_ascii "book" = "book" /\
   "view" <> "" /\ toLowerCase_ascii "view" = "view" /\
   test date_regex "2025-05-20" = true /\ test time_regex "14:00" = true /\
   bookings (loaded None) = Some [] /\ save_succeeds sample_env = true) /\
  reply_of
    (run toLowerCase_ascii (fun t => t) sample_env ["view"]
       (disk_of
          (run toLowerCase_ascii (fun t => t) sample_env
             ["book"; "Dan"; "2025-05-20"; "14:00"; "physics"] None))) =
    Some (view_header ++
          view_entry 0
            {| id := "LAB600123"; customerName := "Dan";
               date := "2025-05-20"; time := "14:00"; labType := "physics";
               status := "confirmed";
               bookingTime := "2025-05-20T14:00:00.123Z" |}).
Proof.
  assert (H0 : "book" <> "") by discriminate.
  assert (Ha : toLowerCase_ascii "book" = "book") by reflexivity.
  assert (H0v : "view" <> "") by discriminate.
  assert (Hav : toLowerCase_ascii "view" = "view") by reflexivity.
  assert (Hd : test date_regex "2025-05-20" = true) by reflexivity.
  assert (Ht : test time_regex "14:00" = true) by reflexivity.
  assert (Hl : bookings (loaded None) = Some []) by reflexivity.
  assert (Hs : save_succeeds sample_env = true) by reflexivity.
  split; [repeat split; assumption|].
  exact (X13_book_then_view toLowerCase_ascii (fun t => t)
           sample_env sample_env "book" "view" "Dan" "2025-05-20" "14:00"
           "physics" [] [] None [] H0 Ha H0v Hav Hd Ht Hl Hs).
Defined.

Lemma X14_cancel_then_status_witness :
  ("cancel" <> "" /\ toLowerCase_ascii "cancel" = "cancel" /\
   "status" <> "" /\ toLowerCase_ascii "status" = "status" /\
   "LAB000002" <> "" /\
   bookings (loaded sample_disk) =
     Some ([sample_booking "LAB000001" "Alice" "confirmed"] ++
           sample_booking "LAB000002" "Bob" "confirmed" ::
           [sample_booking "LAB000002" "Carol" "confirmed"])%list /\
   save_succeeds sample_env = true) /\
  reply_of
    (run toLowerCase_ascii (fun t => t) sample_env ["status"; "LAB000002"]
       (disk_of
          (run toLowerCase_ascii (fun t => t) sample_env
             ["cancel"; "LAB000002"] sample_disk))) =
    Some ("*🔍 Booking Status*" ++ nl ++ nl ++
          "*Booking ID:* LAB000002" ++ nl ++
          "*Customer:* Bob" ++ nl ++
          "*Date:* 2025-05-20" ++ nl ++
          "*Time:* 14:00" ++ nl ++
          "*Lab Type:* chemistry" ++ nl ++
          "*Status:* cancelled" ++ nl ++
          "*Booked on:* 2025-05-20T14:00:00.123Z").
Proof.
  assert (H0 : "cancel" <> "") by discriminate.
  assert (Ha : toLowerCase_ascii "cancel" = "cancel") by reflexivity.
  assert (H0s : "status" <> "") by discriminate.
  assert (Has : toLowerCase_ascii "status" = "status") by reflexivity.
  assert (Hid : "LAB000002" <> "") by discriminate.
  assert (Hl : bookings (loaded sample_disk) =
               Some ([sample_booking "LAB000001" "Alice" "confirmed"] ++
                     sample_booking "LAB000002" "Bob" "confirmed" ::
                     [sample_booking "LAB000002" "Carol" "confirmed"])%list)
    by reflexivity.
  assert (Hs : save_succeeds sample_env = true) by reflexivity.
  assert (Hpre : forall y,
             In y [sample_booking "LAB000001" "Alice" "confirmed"] ->
             id y <> "LAB000002").
  { intros y [<-|[]]. discriminate. }
  split; [repeat split; assumption|].
  destruct (X14_cancel_then_status toLowerCase_ascii (fun t => t)
              sample_env sample_env "cancel" "status" "LAB000002" [] []
              sample_disk [sample_booking "LAB000001" "Alice" "confirmed"]
              (sample_booking "LAB000002" "Bob" "confirmed")
              [sample_booking "LAB000002" "Carol" "confirmed"]
              H0 Ha H0s Has Hid Hl Hpre eq_refl Hs) as [Hreply _].
  exact Hreply.
Defined.

Lemma X15_same_id_iff_same_last_six_digits_witness :
  (100000 <= now sample_env /\ 100000 <= now sample_env_later /\
   now sample_env mod 1000000 = now sample_env_later mod 1000000) /\
  new_id sample_env = new_id sample_env_later.
Proof.
  assert (H1 : 100000 <= now sample_env) by (cbn; lia).
  assert (H2 : 100000 <= now sample_env_later) by (cbn; lia).
  assert (Hm : now sample_env mod 1000000 = now sample_env_later mod 1000000)
    by reflexivity.
  split; [repeat split; assumption|].
  apply (X15_same_id_iff_same_last_six_digits sample_env sample_env_later
           H1 H2).
  exact Hm.
Defined.
